(** * puchikarui: a shallow embedding of the query builder, the row mapper
      and the execution-context protocol of [puchikarui.py], with the
      properties of its specification stated and settled against it. *)

From Stdlib Require Import ZArith String List Lia.
From stdpp Require Import base option list strings gmap fin_maps pretty.

Local Open Scope string_scope.
Local Open Scope list_scope.
Local Open Scope Z_scope.

(** ** Python values *)

(** The scalar values that travel between the caller, the objects and the
    SQL engine. *)
Inductive pyval : Type :=
| PyNone
| PyBool (b : bool)
| PyInt (n : Z)
| PyStr (s : string).

#[global] Instance pyval_eq_dec : EqDecision pyval.
Proof. solve_decision. Defined.

(** Python truth value testing: [None], [False], [0] and [''] are falsy. *)
Definition truthy (v : pyval) : bool :=
  match v with
  | PyNone => false
  | PyBool b => b
  | PyInt n => negb (n =? 0)
  | PyStr s => negb (String.eqb s "")
  end.

(** Truth value of an optional sequence argument ([None], [()] and [[]] are
    falsy) and of an optional string argument ([None] and [''] are falsy). *)
Definition seq_truthy {A} (o : option (list A)) : bool :=
  match o with
  | Some (_ :: _) => true
  | _ => false
  end.

Definition str_truthy (o : option string) : bool :=
  match o with
  | Some s => negb (String.eqb s "")
  | None => false
  end.

Definition int_truthy (o : option Z) : bool :=
  match o with
  | Some n => negb (n =? 0)
  | None => false
  end.

(** [sep.join(l)] *)
Definition join (sep : string) (l : list string) : string := String.concat sep l.

(** [l[start:]], with Python's treatment of a negative or too large start. *)
Definition py_slice_from {A} (l : list A) (start : Z) : list A :=
  let n := Z.of_nat (length l) in
  let i := if start <? 0 then Z.max 0 (n + start) else Z.min start n in
  drop (Z.to_nat i) l.

(** ** Exceptions and results *)

(** The exceptions the code meets.  All of them are subclasses of
    [Exception]; [SqliteError] stands for the errors of the [sqlite3]
    module. *)
Inductive exn : Type :=
| AttributeError (msg : string)
| TypeError (msg : string)
| ValueError (msg : string)
| KeyError (msg : string)
| SqliteError (msg : string).

#[global] Instance exn_eq_dec : EqDecision exn.
Proof. solve_decision. Defined.

Inductive outcome (A : Type) : Type :=
| Return (a : A)
| Raise (e : exn).
Arguments Return {A} a.
Arguments Raise {A} e.

Definition raises {A} (r : outcome A) : bool :=
  match r with
  | Return _ => false
  | Raise _ => true
  end.

(** An object is its instance dictionary. *)
Abbreviation pyobject := (gmap string pyval).

(** [getattr(obj, name)], with no default. *)
Definition getattr (obj : pyobject) (name : string) : outcome pyval :=
  match obj !! name with
  | Some v => Return v
  | None => Raise (AttributeError ("object has no attribute '" +:+ name +:+ "'"))
  end.

(** ** Table metadata *)

(** [DataSource.schema] points back to the schema that owns the data
    source; the reference is an address into the store of schema objects. *)
Definition schema_ref := nat.

Record DataSource : Type := mkDataSource {
  _filepath : string;
  _setup_script : option string;
  _setup_file : option string;      (* the text read from setup_file *)
  ds_auto_commit : bool;
  ds_schema : option schema_ref
}.

Record Table : Type := mkTable {
  name : string;
  columns : list string;
  _data_source : option DataSource;
  _proto : option pyobject;         (* what the zero-argument constructor builds *)
  _id_cols : option (list string)
}.

(** ** Query builder *)

(** [QueryBuilder.__init__] stores one attribute, [schema]; the class body
    defines the four builders.  These are all the names a [QueryBuilder]
    answers to. *)
Inductive QueryBuilder : Type := DefaultQueryBuilder.

Inductive qb_attr : Type :=
| QbSchema
| QbMethod (method : string).

Definition QueryBuilder_methods : list string :=
  ["build_select"; "build_insert"; "build_update"; "build_delete"].

Definition QueryBuilder_getattr (self : QueryBuilder) (attr : string) : outcome qb_attr :=
  if bool_decide (attr = "schema") then Return QbSchema
  else if bool_decide (attr ∈ QueryBuilder_methods) then Return (QbMethod attr)
  else Raise (AttributeError ("'QueryBuilder' object has no attribute '" +:+ attr +:+ "'")).

(** What [str.format] prints for such an attribute. *)
Definition qb_attr_str (a : qb_attr) : string :=
  match a with
  | QbSchema => "<puchikarui.Schema object>"
  | QbMethod m => "<bound method QueryBuilder." +:+ m +:+ ">"
  end.

Definition build_select (self : QueryBuilder) (table : Table)
    (where_ orderby : option string) (limit : option Z)
    (columns_arg : option (list string)) : outcome string :=
  let columns := if seq_truthy columns_arg then default [] columns_arg else columns table in
  let query := ["SELECT "; join "," columns; " FROM "; name table] in
  let query := if str_truthy where_ then query ++ [" WHERE "; default "" where_] else query in
  let query := if str_truthy orderby then query ++ [" ORDER BY "; default "" orderby] else query in
  let query := if int_truthy limit then query ++ [" LIMIT "; pretty (default 0 limit)] else query in
  Return (join "" query).

Definition build_insert (self : QueryBuilder) (table : Table)
    (values : list pyval) (columns_arg : option (list string)) : outcome string :=
  let columns := if seq_truthy columns_arg then default [] columns_arg else columns table in
  let column_names :=
    if (length values <? length columns)%nat
    then join "," (py_slice_from columns (- Z.of_nat (length values)))
    else join "," columns in
  Return ("INSERT INTO " +:+ name table +:+ " (" +:+ column_names +:+ ") VALUES ("
          +:+ join "," (replicate (length values) "?") +:+ ") ").

Definition build_update (self : QueryBuilder) (table : Table)
    (where_ : option string) (columns_arg : option (list string)) : outcome string :=
  let columns := match columns_arg with None => columns table | Some c => c end in
  let set_fields := map (fun col => col +:+ "=?") columns in
  if str_truthy where_
  then Return ("UPDATE " +:+ name table +:+ " SET " +:+ join ", " set_fields
               +:+ " WHERE " +:+ default "" where_)
  else Return ("UPDATE " +:+ name table +:+ " SET " +:+ join ", " set_fields).

Definition build_delete (self : QueryBuilder) (table : Table)
    (where_ : option string) : outcome string :=
  if str_truthy where_
  then Return ("DELETE FROM " +:+ name table +:+ " WHERE " +:+ default "" where_)
  else match QueryBuilder_getattr self "name" with
       | Return tbl => Return ("DELETE FROM " +:+ qb_attr_str tbl)
       | Raise e => Raise e
       end.

(** ** The SQL engine and the world around the program *)

Definition row := list pyval.

(** What [cursor.execute] hands back, and the other things a caller may
    pass where rows are expected. *)
Inductive row_source : Type :=
| RowCursor (rows : list row)
| RowList (rows : list row)
| RowNone.

(** A cursor object has neither [__bool__] nor [__len__]: it is truthy
    whatever it holds. *)
Definition row_source_truthy (r : row_source) : bool :=
  match r with
  | RowCursor _ => true
  | RowList (_ :: _) => true
  | RowList [] => false
  | RowNone => false
  end.

Definition rows_of (r : row_source) : list row :=
  match r with
  | RowCursor rows | RowList rows => rows
  | RowNone => []
  end.

Record connection : Type := mkConnection { c_id : nat; c_path : string }.

(** The calls made on the engine, in the order they are made.  An event
    records the call, whether or not the engine then fails. *)
Inductive event : Type :=
| EvConnect (c : connection)
| EvScript (c : connection) (script : string)
| EvExecute (c : connection) (query : string) (params : option (list pyval))
| EvCommit (c : connection)
| EvClose (c : connection).

#[global] Instance connection_eq_dec : EqDecision connection.
Proof. solve_decision. Defined.

#[global] Instance event_eq_dec : EqDecision event.
Proof. solve_decision. Defined.

Record world : Type := mkWorld {
  w_trace : list event;        (* engine calls so far, oldest first *)
  w_log : list string;         (* what the logger has written *)
  w_files : gmap string N;     (* regular files and their sizes *)
  w_next : nat                 (* next fresh object identity *)
}.

(** The answers of the engine, as functions of the calls made so far. *)
Record Engine : Type := mkEngine {
  connect_error : list event -> string -> option exn;
  execute_result : list event -> string -> option (list pyval) -> outcome (list row);
  script_error : list event -> string -> option exn;
  script_size : string -> N -> N;
  commit_error : list event -> option exn;
  close_error : list event -> option exn;
  lastrowid_of : list event -> pyval
}.

(** ** A state and exception monad *)

Definition M (S A : Type) : Type := S -> outcome A * S.

#[global] Instance M_ret S : MRet (M S) := fun A a s => (Return a, s).

#[global] Instance M_bind S : MBind (M S) := fun A B f m s =>
  match m s with
  | (Return a, s') => f a s'
  | (Raise e, s') => (Raise e, s')
  end.

Definition raise {S A} (e : exn) : M S A := fun s => (Raise e, s).

Definition lift_outcome {S A} (r : outcome A) : M S A := fun s => (r, s).

(** [try: body except Exception as e: handler e] *)
Definition try_except {S A} (body : M S A) (handler : exn -> M S A) : M S A := fun s =>
  match body s with
  | (Return a, s') => (Return a, s')
  | (Raise e, s') => handler e s'
  end.

(** [try: body finally: fin] *)
Definition try_finally {S A} (body : M S A) (fin : M S unit) : M S A := fun s =>
  match body s with
  | (r, s1) =>
      match fin s1 with
      | (Return _, s2) => (r, s2)
      | (Raise e, s2) => (Raise e, s2)
      end
  end.

Definition exn_str (e : exn) : string :=
  match e with
  | AttributeError m | TypeError m | ValueError m | KeyError m | SqliteError m => m
  end.

Definition emit (ev : event) (w : world) : world :=
  mkWorld (w_trace w ++ [ev]) (w_log w) (w_files w) (w_next w).

Definition set_files (f : gmap string N) (w : world) : world :=
  mkWorld (w_trace w) (w_log w) f (w_next w).

(** [logger.warning] and [logger.exception] both write at or above the
    level the module sets ([WARNING]); [logger.debug] writes nothing. *)
Definition logger_write (msg : string) : M world unit := fun w =>
  (Return tt, mkWorld (w_trace w) (w_log w ++ [msg]) (w_files w) (w_next w)).

Definition fresh_id : M world nat := fun w =>
  (Return (w_next w), mkWorld (w_trace w) (w_log w) (w_files w) (S (w_next w))).

(** [os.path.isfile] and [os.path.getsize] *)
Definition isfile (w : world) (path : string) : bool := bool_decide (is_Some (w_files w !! path)).
Definition getsize (w : world) (path : string) : N := default 0%N (w_files w !! path).

(** ** Schema, contexts and mapped rows *)

(** A schema as [add_table] leaves it.  [add_table] stores each table twice
    under the same name: as an attribute of the schema ([setattr]) and in
    [_tables].  The record keeps [_tables] and lets it stand for both, which
    is right for tables whose names are not names of the schema's own
    attributes ([data_source], [ds], ...). *)
Record Schema : Type := mkSchema {
  data_source : DataSource;
  s_auto_commit : bool;
  _tables : gmap string Table;
  query_builder : QueryBuilder
}.

(** The attributes [__init__] sets, and [tables_cache] for those [setattr]
    adds later: each is a [TableContext] on this very object, kept as its
    identity and its table. *)
Record ExecutionContext : Type := mkExecutionContext {
  conn : option connection;
  cur : connection;                 (* the cursor, named by its connection *)
  schema : option Schema;
  auto_commit : bool;
  tables_cache : gmap string (nat * Table)
}.

Record TableContext : Type := mkTableContext {
  tc_id : nat;                      (* object identity *)
  _table : Table;
  _context : ExecutionContext
}.

(** A mapped row: a named tuple over a list of fields, or a domain object. *)
Inductive record : Type :=
| RowTuple (fields : list string) (vals : list pyval)
| RowObject (obj : pyobject).

(** What attribute access on a context can give: one of the context's own
    attributes or methods, or a table context. *)
Inductive attribute : Type :=
| OwnAttribute (attr : string)
| TableAttribute (tc : TableContext).

Definition ExecutionContext_fields : list string :=
  ["conn"; "cur"; "schema"; "auto_commit"].

Definition ExecutionContext_methods : list string :=
  ["__init__"; "commit"; "select_record"; "insert_record"; "update_record";
   "delete_record"; "select_object_by_id"; "insert_object"; "update_object";
   "delete_object"; "execute"; "executescript"; "executefile"; "close";
   "__getattr__"; "__enter__"; "__exit__"].

(** What every instance of a class inherits from [object]. *)
Definition object_attributes : list string :=
  ["__class__"; "__delattr__"; "__dict__"; "__dir__"; "__doc__"; "__eq__";
   "__format__"; "__ge__"; "__getattribute__"; "__gt__"; "__hash__";
   "__init_subclass__"; "__le__"; "__lt__"; "__module__"; "__ne__"; "__new__";
   "__reduce__"; "__reduce_ex__"; "__repr__"; "__setattr__"; "__sizeof__";
   "__str__"; "__subclasshook__"; "__weakref__"].

Definition own_attributes : list string :=
  ExecutionContext_fields ++ ExecutionContext_methods ++ object_attributes.

Definition set_conn (c : option connection) (self : ExecutionContext) : ExecutionContext :=
  mkExecutionContext c (cur self) (schema self) (auto_commit self) (tables_cache self).

Definition set_cached (attr : string) (v : nat * Table) (self : ExecutionContext) : ExecutionContext :=
  mkExecutionContext (conn self) (cur self) (schema self) (auto_commit self)
                     (<[attr := v]> (tables_cache self)).

(** Code that only talks to the engine runs over the world; code that also
    assigns to attributes of a context runs over the context and the world. *)
Definition lift {A} (m : M world A) : M (ExecutionContext * world) A := fun s =>
  match m (snd s) with
  | (r, w') => (r, (fst s, w'))
  end.

Definition get_self : M (ExecutionContext * world) ExecutionContext := fun s => (Return (fst s), s).

Definition put_self (self : ExecutionContext) : M (ExecutionContext * world) unit := fun s =>
  (Return tt, (self, snd s)).

(** [dict(zip(columns, row))]: a later pair overwrites an earlier one. *)
Definition dict_zip (cols : list string) (r : row) : gmap string pyval :=
  foldl (fun m kv => <[kv.1 := kv.2]> m) ∅ (zip cols r).

(** [update_data(source, target, *fields)] with no [field_map]. *)
Fixpoint update_data_fields (source : gmap string pyval) (target : pyobject)
    (fields : list string) : outcome pyobject :=
  match fields with
  | [] => Return target
  | f :: fs =>
      match source !! f with
      | Some v => update_data_fields source (<[f := v]> target) fs
      | None => Raise (KeyError f)
      end
  end.

Definition update_data (source : gmap string pyval) (target : pyobject)
    (fields : list string) : outcome pyobject :=
  let fields := match fields with [] => (map_to_list source).*1 | _ => fields end in
  update_data_fields source target fields.

(** [to_obj(cls, obj_data, *fields)]: [cls()] then [update_data]. *)
Definition to_obj (cls : pyobject) (obj_data : gmap string pyval)
    (fields : list string) : outcome pyobject :=
  update_data obj_data cls fields.

Section Embedding.

(** The engine, the store of schema objects that [DataSource.schema]
    points into, and what [collections.namedtuple(..., rename=True)] makes
    of a list of field names. *)
Variable eng : Engine.
Variable heap : schema_ref -> Schema.
Variable rename_fields : list string -> list string.

(** *** Calls on the engine *)

(** The paths for which the engine keeps no file: the reserved name of
    the in-memory database, and the empty path, on which it opens a private
    temporary database. *)
Definition names_no_file (path : string) : bool :=
  bool_decide (path = ":memory:") || bool_decide (path = "").

(** [sqlite3.connect(path)]: a file that does not exist yet is created,
    empty, unless the path names no file. *)
Definition create_if_absent (path : string) (files : gmap string N) : gmap string N :=
  if names_no_file path then files
  else match files !! path with
       | Some _ => files
       | None => <[path := 0%N]> files
       end.

Definition sqlite3_connect (path : string) : M world connection := fun w =>
  let c := mkConnection (w_next w) path in
  let w1 := mkWorld (w_trace w ++ [EvConnect c]) (w_log w) (w_files w) (S (w_next w)) in
  match connect_error eng (w_trace w) path with
  | Some e => (Raise e, w1)
  | None => (Return c, set_files (create_if_absent path (w_files w1)) w1)
  end.

Definition cursor_execute (c : connection) (query : string)
    (params : option (list pyval)) : M world row_source := fun w =>
  match execute_result eng (w_trace w) query params with
  | Return rows => (Return (RowCursor rows), emit (EvExecute c query params) w)
  | Raise e => (Raise e, emit (EvExecute c query params) w)
  end.

Definition write_file (path : string) (script : string) (files : gmap string N) : gmap string N :=
  if names_no_file path then files
  else <[path := script_size eng script (default 0%N (files !! path))]> files.

Definition cursor_executescript (c : connection) (script : string) : M world unit := fun w =>
  let w1 := emit (EvScript c script) w in
  match script_error eng (w_trace w) script with
  | Some e => (Raise e, w1)
  | None => (Return tt, set_files (write_file (c_path c) script (w_files w1)) w1)
  end.

Definition conn_commit (c : connection) : M world unit := fun w =>
  match commit_error eng (w_trace w) with
  | Some e => (Raise e, emit (EvCommit c) w)
  | None => (Return tt, emit (EvCommit c) w)
  end.

Definition conn_close (c : connection) : M world unit := fun w =>
  match close_error eng (w_trace w) with
  | Some e => (Raise e, emit (EvClose c) w)
  | None => (Return tt, emit (EvClose c) w)
  end.

Definition cursor_lastrowid (c : connection) : M world pyval := fun w =>
  (Return (lastrowid_of eng (w_trace w)), w).

(** *** Table: the row mapper *)

Definition template (self : Table) : list string := rename_fields (columns self).

Definition to_row (self : Table) (row_tuple : row) (template_arg : option (list string))
    : outcome record :=
  let t := match template_arg with Some t => t | None => template self end in
  if bool_decide (length row_tuple = length t)
  then Return (RowTuple t row_tuple)
  else Raise (TypeError "__new__() takes a different number of positional arguments").

Definition Table_to_obj (self : Table) (row_tuple : row) (columns_arg : option (list string))
    : outcome record :=
  match _proto self with
  | None => to_row self row_tuple None
  | Some cls =>
      let columns := if seq_truthy columns_arg then default [] columns_arg else columns self in
      match to_obj cls (dict_zip columns row_tuple) columns with
      | Return new_obj => Return (RowObject new_obj)
      | Raise e => Raise e
      end
  end.

Fixpoint map_outcome {A B} (f : A -> outcome B) (l : list A) : outcome (list B) :=
  match l with
  | [] => Return []
  | x :: xs =>
      match f x with
      | Raise e => Raise e
      | Return y =>
          match map_outcome f xs with
          | Raise e => Raise e
          | Return ys => Return (y :: ys)
          end
      end
  end.

Definition to_table (self : Table) (row_tuples : row_source)
    (columns_arg : option (list string)) : outcome (list record) :=
  if negb (row_source_truthy row_tuples)
  then Raise (ValueError "Invalid row_tuples")
  else
    match _proto self with
    | Some _ => map_outcome (fun x => Table_to_obj self x columns_arg) (rows_of row_tuples)
    | None =>
        if seq_truthy columns_arg
        then let new_tuples := rename_fields (default [] columns_arg) in
             map_outcome (fun x => to_row self x (Some new_tuples)) (rows_of row_tuples)
        else map_outcome (fun x => to_row self x None) (rows_of row_tuples)
    end.

(** *** ExecutionContext *)

Definition ExecutionContext_init (path : string) (schema : option Schema) (auto_commit : bool)
    : M world ExecutionContext :=
  c ← sqlite3_connect path;
  mret (mkExecutionContext (Some c) c schema auto_commit ∅).

Definition commit (self : ExecutionContext) : M world unit :=
  match conn self with
  | Some c =>
      try_except (conn_commit c)
                 (fun e => logger_write ("Cannot commit changes. e = " +:+ exn_str e))
  | None => mret tt
  end.

Definition execute (self : ExecutionContext) (query : string) (params : option (list pyval))
    : M world row_source :=
  try_except
    (if seq_truthy params
     then cursor_execute (cur self) query params
     else cursor_execute (cur self) query None)
    (fun e => _ ← logger_write ("Invalid query. q=" +:+ query); raise e).

Definition executescript (self : ExecutionContext) (query : string) : M world unit :=
  cursor_executescript (cur self) query.

(** [self.schema.query_builder] *)
Definition schema_query_builder (self : ExecutionContext) : M world QueryBuilder :=
  match schema self with
  | Some s => mret (query_builder s)
  | None => raise (AttributeError "'NoneType' object has no attribute 'query_builder'")
  end.

Definition select_record (self : ExecutionContext) (table : Table)
    (where_ : option string) (values : option (list pyval))
    (orderby : option string) (limit : option Z) (columns : option (list string))
    : M world (list record) :=
  qb ← schema_query_builder self;
  query ← lift_outcome (build_select qb table where_ orderby limit columns);
  rows ← execute self query values;
  lift_outcome (to_table table rows columns).

Definition insert_record (self : ExecutionContext) (table : Table)
    (values : list pyval) (columns : option (list string)) : M world pyval :=
  qb ← schema_query_builder self;
  query ← lift_outcome (build_insert qb table values columns);
  _ ← execute self query (Some values);
  cursor_lastrowid (cur self).

Definition update_record (self : ExecutionContext) (table : Table)
    (new_values : list pyval) (where_ : option string)
    (where_values : option (list pyval)) (columns : option (list string))
    : M world row_source :=
  qb ← schema_query_builder self;
  query ← lift_outcome (build_update qb table where_ columns);
  execute self query
          (Some (if seq_truthy where_values
                 then new_values ++ default [] where_values
                 else new_values)).

Definition delete_record (self : ExecutionContext) (table : Table)
    (where_ : option string) (values : option (list pyval)) : M world row_source :=
  qb ← schema_query_builder self;
  query ← lift_outcome (build_delete qb table where_);
  execute self query values.

(** [' AND '.join(['{c}=?'.format(c=c) for c in table._id_cols])] *)
Definition id_where (table : Table) : outcome string :=
  match _id_cols table with
  | Some ids => Return (join " AND " (map (fun c => c +:+ "=?") ids))
  | None => Raise (TypeError "'NoneType' object is not iterable")
  end.

(** [tuple(getattr(obj_data, colname) for colname in cols)] *)
Definition getattrs (obj_data : pyobject) (cols : list string) : outcome (list pyval) :=
  map_outcome (getattr obj_data) cols.

Definition select_object_by_id (self : ExecutionContext) (table : Table)
    (ids : list pyval) (columns : option (list string)) : M world (option record) :=
  where_ ← lift_outcome (id_where table);
  results ← select_record self table (Some where_) (Some ids) None None columns;
  match results with
  | r :: _ => mret (Some r)
  | [] => mret None
  end.

Definition insert_object (self : ExecutionContext) (table : Table)
    (obj_data : pyobject) (columns_arg : option (list string)) : M world pyval :=
  let columns := if seq_truthy columns_arg then default [] columns_arg else columns table in
  values ← lift_outcome (getattrs obj_data columns);
  _ ← insert_record self table values (Some columns);
  cursor_lastrowid (cur self).

Definition update_object (self : ExecutionContext) (table : Table)
    (obj_data : pyobject) (columns_arg : option (list string)) : M world pyval :=
  where_ ← lift_outcome (id_where table);
  where_values ← lift_outcome (getattrs obj_data (default [] (_id_cols table)));
  let columns := if seq_truthy columns_arg then default [] columns_arg else columns table in
  new_values ← lift_outcome (getattrs obj_data columns);
  _ ← update_record self table new_values (Some where_) (Some where_values) (Some columns);
  mret PyNone.

Definition delete_object (self : ExecutionContext) (table : Table)
    (obj_data : pyobject) : M world pyval :=
  where_ ← lift_outcome (id_where table);
  where_values ← lift_outcome (getattrs obj_data (default [] (_id_cols table)));
  _ ← delete_record self table (Some where_) (Some where_values);
  mret PyNone.

Definition close : M (ExecutionContext * world) unit :=
  try_finally
    (try_except
       (self ← get_self;
        match conn self with
        | Some c =>
            _ ← (if auto_commit self then lift (commit self) else mret tt);
            lift (conn_close c)
        | None => mret tt
        end)
       (fun _ => lift (logger_write "Error while closing connection")))
    (self ← get_self; put_self (set_conn None self)).

(** [__exit__] has no [return]: it answers [None], whatever the body did. *)
Definition __exit__ (exc : option exn) : M (ExecutionContext * world) pyval :=
  _ ← try_except close
        (fun e => lift (logger_write
           ("Error was raised while closing DB connection. e = " +:+ exn_str e)));
  mret PyNone.

(** [with ... as exe: body], for a context already entered ([__enter__]
    gives back the context).  A body that returns makes the statement
    return; an exception leaves through [__exit__], which may swallow it
    by answering with a truthy value. *)
Definition py_with {A} (body : M (ExecutionContext * world) A)
    : M (ExecutionContext * world) (option A) := fun s =>
  match body s with
  | (Return a, s1) =>
      match __exit__ None s1 with
      | (Return _, s2) => (Return (Some a), s2)
      | (Raise e', s2) => (Raise e', s2)
      end
  | (Raise e, s1) =>
      match __exit__ (Some e) s1 with
      | (Return suppress, s2) => if truthy suppress then (Return None, s2) else (Raise e, s2)
      | (Raise e', s2) => (Raise e', s2)
      end
  end.

(** [with opener as exe: body] *)
Definition with_open {A} (opener : M world ExecutionContext)
    (body : M (ExecutionContext * world) A) : M world (option A) := fun w =>
  match opener w with
  | (Raise e, w1) => (Raise e, w1)
  | (Return exe, w1) =>
      match py_with body (exe, w1) with
      | (r, s2) => (r, snd s2)
      end
  end.

(** [__getattr__] is what Python calls when the ordinary lookup of
    [name] on the context has found nothing. *)
Definition __getattr__ (name : string) : M (ExecutionContext * world) attribute :=
  self ← get_self;
  match schema self with
  | None => raise (AttributeError ("Attribute " +:+ name +:+ " does not exist"))
  | Some s =>
      match _tables s !! name with
      | None => raise (AttributeError ("Attribute " +:+ name +:+ " does not exist"))
      | Some tbl =>
          i ← lift fresh_id;                        (* ctx = TableContext(tbl, self) *)
          _ ← put_self (set_cached name (i, tbl) self);   (* setattr(self, name, ctx) *)
          self' ← get_self;                         (* return getattr(self, name) *)
          match tables_cache self' !! name with
          | Some (j, t) => mret (TableAttribute (mkTableContext j t self'))
          | None => raise (AttributeError ("Attribute " +:+ name +:+ " does not exist"))
          end
      end
  end.

(** [exe.name]: the instance dictionary, then the class and [object], and
    [__getattr__] last. *)
Definition ExecutionContext_getattr (name : string) : M (ExecutionContext * world) attribute :=
  self ← get_self;
  if bool_decide (name ∈ ExecutionContext_fields) then mret (OwnAttribute name)
  else match tables_cache self !! name with
       | Some (i, tbl) => mret (TableAttribute (mkTableContext i tbl self))
       | None =>
           if bool_decide (name ∈ ExecutionContext_methods ++ object_attributes)
           then mret (OwnAttribute name)
           else __getattr__ name
       end.

(** *** TableContext *)

(** [TableContext(table, context)] *)
Definition TableContext_init (table : Table) (context : ExecutionContext) : M world TableContext :=
  i ← fresh_id; mret (mkTableContext i table context).

Definition TableContext_select (self : TableContext) (where_ : option string)
    (values : option (list pyval)) (orderby : option string) (limit : option Z)
    (columns : option (list string)) : M world (list record) :=
  select_record (_context self) (_table self) where_ values orderby limit columns.

Definition TableContext_select_single (self : TableContext) (where_ : option string)
    (values : option (list pyval)) (orderby : option string) (limit : option Z)
    (columns : option (list string)) : M world (option record) :=
  result ← select_record (_context self) (_table self) where_ values orderby limit columns;
  match result with
  | r :: _ => mret (Some r)
  | [] => mret None
  end.

Definition TableContext_insert (self : TableContext) (values : list pyval)
    (columns : option (list string)) : M world pyval :=
  insert_record (_context self) (_table self) values columns.

Definition TableContext_update (self : TableContext) (new_values : list pyval)
    (where_ : option string) (where_values : option (list pyval))
    (columns : option (list string)) : M world row_source :=
  update_record (_context self) (_table self) new_values where_ where_values columns.

Definition TableContext_delete (self : TableContext) (where_ : option string)
    (values : option (list pyval)) : M world row_source :=
  delete_record (_context self) (_table self) where_ values.

Definition TableContext_by_id (self : TableContext) (args : list pyval)
    (columns : option (list string)) : M world (option record) :=
  select_object_by_id (_context self) (_table self) args columns.

(** The loop of [save]: [existed = existed and getattr(obj, i)]. *)
Fixpoint save_existed (obj : pyobject) (id_cols : list string) (existed : pyval)
    : outcome pyval :=
  match id_cols with
  | [] => Return existed
  | i :: rest =>
      if truthy existed
      then match getattr obj i with
           | Return v => save_existed obj rest v
           | Raise e => Raise e
           end
      else save_existed obj rest existed
  end.

Definition TableContext_save (self : TableContext) (obj : pyobject)
    (columns : option (list string)) : M world pyval :=
  match _id_cols (_table self) with
  | None => raise (TypeError "'NoneType' object is not iterable")
  | Some id_cols =>
      existed ← lift_outcome (save_existed obj id_cols (PyBool true));
      if truthy existed
      then update_object (_context self) (_table self) obj columns
      else insert_object (_context self) (_table self) obj columns
  end.

(** [delete_obj(self, obj)], called with the positional arguments [args]. *)
Definition TableContext_delete_obj (self : TableContext) (args : list pyobject) : M world pyval :=
  match args with
  | [obj] => delete_object (_context self) (_table self) obj
  | [] => raise (TypeError "delete_obj() missing 1 required positional argument: 'obj'")
  | _ => raise (TypeError "delete_obj() takes 2 positional arguments but more were given")
  end.

(** *** DataSource *)

Definition path (self : DataSource) : string := _filepath self.

(** [not os.path.isfile(path) or os.path.getsize(path) == 0] *)
Definition setup_required (path : string) : M world bool := fun w =>
  (Return (negb (isfile w path) || (getsize w path =? 0)%N), w).

Definition DataSource_open (self : DataSource) (auto_commit : option bool)
    (schema_arg : option Schema) : M world ExecutionContext :=
  let schema := match schema_arg with
                | Some s => Some s
                | None => heap <$> ds_schema self
                end in
  let ac := match auto_commit with Some b => b | None => ds_auto_commit self end in
  exe ← ExecutionContext_init (path self) schema ac;
  required ← setup_required (path self);
  if required : bool
  then
    _ ← logger_write "DB does not exist. Setup is required.";
    _ ← match _setup_file self with
        | Some script => cursor_executescript (cur exe) script
        | None => mret tt
        end;
    _ ← match _setup_script self with
        | Some script => cursor_executescript (cur exe) script
        | None => mret tt
        end;
    mret exe
  else mret exe.

(** *** Table: the convenience methods that may open a context *)

(** [self._data_source.open()] *)
Definition Table_open (self : Table) : M world ExecutionContext :=
  match _data_source self with
  | Some ds => DataSource_open ds None None
  | None => raise (AttributeError "'NoneType' object has no attribute 'open'")
  end.

Definition Table_ctx (self : Table) (exe : ExecutionContext) : M world TableContext :=
  TableContext_init self exe.

(** The result is [Some r] when the [return] of the method is reached, as
    for [py_with]. *)
Definition Table_delete_obj (self : Table) (obj : pyobject) (exe : option ExecutionContext)
    : M world (option pyval) :=
  match exe with
  | Some exe => tc ← Table_ctx self exe; r ← TableContext_delete_obj tc [obj]; mret (Some r)
  | None =>
      with_open (Table_open self)
                (exe ← get_self; lift (tc ← Table_ctx self exe; TableContext_delete_obj tc []))
  end.

Definition Table_select (self : Table) (where_ : option string)
    (values : option (list pyval)) (orderby : option string) (limit : option Z)
    (columns : option (list string)) (exe : option ExecutionContext)
    : M world (option (list record)) :=
  match exe with
  | Some exe => r ← select_record exe self where_ values orderby limit columns; mret (Some r)
  | None =>
      with_open (Table_open self)
                (exe ← get_self; lift (select_record exe self where_ values orderby limit columns))
  end.

(** *** Schema *)

Definition Schema_ctx (self : Schema) : M world ExecutionContext :=
  DataSource_open (data_source self) None (Some self).

(** *** The other convenience methods of Table, and of DataSource *)

Definition Table_select_single (self : Table) (where_ : option string)
    (values : option (list pyval)) (orderby : option string) (limit : option Z)
    (columns : option (list string)) (exe : option ExecutionContext)
    : M world (option record) :=
  result ← Table_select self where_ values orderby limit columns exe;
  match result with
  | Some (r :: _) => mret (Some r)
  | _ => mret None
  end.

Definition Table_insert (self : Table) (values : list pyval)
    (columns : option (list string)) (exe : option ExecutionContext)
    : M world (option pyval) :=
  match exe with
  | Some exe => tc ← Table_ctx self exe; r ← TableContext_insert tc values columns; mret (Some r)
  | None =>
      with_open (Table_open self)
                (exe ← get_self; lift (tc ← Table_ctx self exe; TableContext_insert tc values columns))
  end.

Definition Table_by_id (self : Table) (args : list pyval) (columns : option (list string))
    (exe : option ExecutionContext) : M world (option (option record)) :=
  match exe with
  | Some exe => tc ← Table_ctx self exe; r ← TableContext_by_id tc args columns; mret (Some r)
  | None =>
      with_open (Table_open self)
                (exe ← get_self; lift (tc ← Table_ctx self exe; TableContext_by_id tc args columns))
  end.

Definition Table_save (self : Table) (obj : pyobject) (columns : option (list string))
    (exe : option ExecutionContext) : M world (option pyval) :=
  match exe with
  | Some exe => tc ← Table_ctx self exe; r ← TableContext_save tc obj columns; mret (Some r)
  | None =>
      with_open (Table_open self)
                (exe ← get_self; lift (tc ← Table_ctx self exe; TableContext_save tc obj columns))
  end.

(** [DataSource.__init__], given the text read from the setup file, and
    [Schema.__init__], given the address of the schema being built and
    either a ready data source or a path. *)
Definition DataSource_init (db_path : string) (setup_script setup_file : option string)
    (auto_commit : bool) (schema : option schema_ref) : DataSource :=
  mkDataSource db_path setup_script setup_file auto_commit schema.

Definition Schema_init (self : schema_ref) (data_source : DataSource + string)
    (setup_script setup_file : option string) (auto_commit : bool) : Schema :=
  let ds := match data_source with
            | inl ds => ds
            | inr db_path => DataSource_init db_path setup_script setup_file auto_commit (Some self)
            end in
  mkSchema ds auto_commit ∅ DefaultQueryBuilder.

End Embedding.

(** ** Concrete schemas, engines and worlds *)

(** The demonstration schema of the test suite. *)
Definition SETUP_SCRIPT : string := "INSERT INTO person (name, age) VALUES ('Chun', 78)".

Definition demo_source : DataSource :=
  mkDataSource "test.db" (Some SETUP_SCRIPT) None true (Some 0%nat).

Definition person : Table :=
  mkTable "person" ["ID"; "name"; "age"] (Some demo_source) None (Some ["ID"]).

Definition demo_schema : Schema :=
  mkSchema demo_source true {[ "person" := person ]} DefaultQueryBuilder.

Definition demo_heap : schema_ref -> Schema := fun _ => demo_schema.

(** An engine on which every call succeeds and every query matches no row. *)
Definition quiet_engine : Engine :=
  mkEngine (fun _ _ => None) (fun _ _ _ => Return []) (fun _ _ => None)
           (fun script size => (size + N.of_nat (String.length script))%N)
           (fun _ => None) (fun _ => None) (fun _ => PyInt 1).

(** An engine whose [commit] and [close] both fail. *)
Definition failing_engine : Engine :=
  mkEngine (fun _ _ => None) (fun _ _ _ => Return []) (fun _ _ => None)
           (fun script size => (size + N.of_nat (String.length script))%N)
           (fun _ => Some (SqliteError "disk I/O error"))
           (fun _ => Some (SqliteError "unable to close"))
           (fun _ => PyInt 1).

Definition no_rename : list string -> list string := fun l => l.

Definition world0 : world := mkWorld [] [] ∅ 0.

(** A world in which [test.db] already holds a database. *)
Definition world_with_db : world := mkWorld [] [] {[ "test.db" := 4096%N ]} 0.

Definition demo_connection : connection := mkConnection 0 "test.db".

Definition demo_context : ExecutionContext :=
  mkExecutionContext (Some demo_connection) demo_connection (Some demo_schema) true ∅.

Definition demo_table_context : TableContext := mkTableContext 1 person demo_context.

(** The scripts among the engine calls of a trace, and the statements. *)
Definition scripts_run (t : list event) : list string :=
  omap (fun ev => match ev with EvScript _ s => Some s | _ => None end) t.

Definition statements_run (t : list event) : list string :=
  omap (fun ev => match ev with EvExecute _ q _ => Some q | _ => None end) t.

(** The store named by [path] exists and is not empty. *)
Definition has_content (w : world) (path : string) : bool :=
  isfile w path && negb (getsize w path =? 0)%N.

(** [n] calls of [open()] in a row. *)
Fixpoint open_many (eng : Engine) (heap : schema_ref -> Schema) (ds : DataSource)
    (n : nat) (w : world) : world :=
  match n with
  | O => w
  | S k => open_many eng heap ds k (snd (DataSource_open eng heap ds None None w))
  end.

(** The attribute [i] is on the object and truthy; it is on the object and
    falsy. *)
Definition attr_truthy (obj : pyobject) (i : string) : bool :=
  match obj !! i with
  | Some v => truthy v
  | None => false
  end.

Definition attr_falsy (obj : pyobject) (i : string) : bool :=
  match obj !! i with
  | Some v => negb (truthy v)
  | None => false
  end.

(** Something outside the program empties the store at [path]. *)
Definition emptied_externally (path : string) (w : world) : world :=
  set_files (<[path := 0%N]> (w_files w)) w.

(** Only tables of the bound schema sit in the cache of a context.  This
    holds of a context as [__init__] leaves it and is kept by every access. *)
Definition cache_sound (self : ExecutionContext) : Prop :=
  forall n i t, tables_cache self !! n = Some (i, t) ->
                exists s, schema self = Some s /\ _tables s !! n = Some t.

(** What may happen to a context during its lifetime: an attribute is
    accessed, or the context is closed. *)
Inductive ctx_op : Type :=
| OpAccess (attr : string)
| OpClose.

Definition run_op (eng : Engine) (op : ctx_op) (s : ExecutionContext * world)
    : ExecutionContext * world :=
  match op with
  | OpAccess n => snd (ExecutionContext_getattr n s)
  | OpClose => snd (close eng s)
  end.

Definition run_ops (eng : Engine) (ops : list ctx_op) (s : ExecutionContext * world)
    : ExecutionContext * world :=
  foldl (fun s op => run_op eng op s) s ops.

(** The table registered under [name] in the schema a context is bound to. *)
Definition registered (self : ExecutionContext) (name : string) : option Table :=
  match schema self with
  | Some s => _tables s !! name
  | None => None
  end.

(** Three objects for the [person] table: one not saved yet, one that
    carries its identity, and one with no [ID] attribute at all. *)
Definition new_person : pyobject :=
  {[ "ID" := PyNone; "name" := PyStr "Buu"; "age" := PyInt 1000 ]}.

Definition saved_person : pyobject :=
  {[ "ID" := PyInt 7; "name" := PyStr "Buu"; "age" := PyInt 1000 ]}.

Definition anonymous : pyobject :=
  {[ "name" := PyStr "Buu"; "age" := PyInt 1000 ]}.

(** A table with two id columns, and three objects for it: one whose first
    id attribute is [None] and whose second is not set, one whose first id
    attribute is set and whose second is [0], and one whose first id
    attribute is set and whose second is missing. *)
Definition enrolment : Table :=
  mkTable "enrolment" ["student"; "course"; "grade"] (Some demo_source) None
          (Some ["student"; "course"]).

Definition enrolment_context : TableContext := mkTableContext 4 enrolment demo_context.

Definition unplaced : pyobject := {[ "student" := PyNone; "grade" := PyStr "A" ]}.

Definition placed_nowhere : pyobject :=
  {[ "student" := PyInt 3; "course" := PyInt 0; "grade" := PyStr "A" ]}.

Definition courseless : pyobject := {[ "student" := PyInt 3; "grade" := PyStr "A" ]}.

(** A schema with a table whose name is also the name of a method of the
    execution context, and a context bound to it. *)
Definition vcs_schema : Schema :=
  mkSchema demo_source true
           {[ "commit" := mkTable "commit" ["ID"; "message"] (Some demo_source) None
                                  (Some ["ID"]) ]}
           DefaultQueryBuilder.

Definition vcs_context : ExecutionContext :=
  mkExecutionContext (Some demo_connection) demo_connection (Some vcs_schema) true ∅.

(** A body that fails. *)
Definition failing_body : M (ExecutionContext * world) unit :=
  raise (ValueError "boom").


(** What the logger receives while a context is closed: one line for a
    failed commit and one for a failed close. *)
Definition exit_log (eng : Engine) (ac : bool) (t : list event) (c : connection) : list string :=
  let commit_log :=
    if ac then match commit_error eng t with
               | Some e => ["Cannot commit changes. e = " +:+ exn_str e]
               | None => []
               end
    else [] in
  let t1 := if ac then t ++ [EvCommit c] else t in
  commit_log ++ match close_error eng t1 with
                | Some _ => ["Error while closing connection"]
                | None => []
                end.

(** More of the demonstration schema: a table declared without id columns,
    one whose id columns are the empty tuple, and the [person] table mapped
    onto the [Person] class of the test suite. *)
Definition hobby : Table := mkTable "hobby" ["pid"; "hobby"] (Some demo_source) None None.

Definition hobby_context : TableContext := mkTableContext 2 hobby demo_context.

Definition setting : Table :=
  mkTable "setting" ["key"; "value"] (Some demo_source) None (Some []).

Definition setting_context : TableContext := mkTableContext 3 setting demo_context.

Definition a_setting : pyobject := {[ "key" := PyStr "theme"; "value" := PyStr "dark" ]}.

Definition person_proto : pyobject :=
  {[ "ID" := PyNone; "name" := PyStr ""; "age" := PyInt (-1) ]}.

Definition person_objects : Table :=
  mkTable "person" ["ID"; "name"; "age"] (Some demo_source) (Some person_proto) (Some ["ID"]).

(** A data source built on its own, with no schema, and a table over it. *)
Definition unbound_source : DataSource := mkDataSource "test.db" None None true None.

Definition unbound_person : Table :=
  mkTable "person" ["ID"; "name"; "age"] (Some unbound_source) None (Some ["ID"]).

(** A data source in memory, with a setup file and a setup script. *)
Definition CREATE_SCRIPT : string := "CREATE TABLE person (ID INTEGER PRIMARY KEY, name, age)".

Definition memory_source : DataSource :=
  mkDataSource ":memory:" (Some SETUP_SCRIPT) (Some CREATE_SCRIPT) true (Some 0%nat).

Definition file_source : DataSource :=
  mkDataSource "test.db" (Some SETUP_SCRIPT) (Some CREATE_SCRIPT) true (Some 0%nat).

(** An engine that rejects every statement, one that rejects every script,
    and one whose scripts always leave at least a page in the file. *)
Definition rejecting_engine : Engine :=
  mkEngine (fun _ _ => None) (fun _ _ _ => Raise (SqliteError "UNIQUE constraint failed"))
           (fun _ _ => None)
           (fun script size => (size + N.of_nat (String.length script))%N)
           (fun _ => None) (fun _ => None) (fun _ => PyInt 1).

Definition broken_setup_engine : Engine :=
  mkEngine (fun _ _ => None) (fun _ _ _ => Return [])
           (fun _ _ => Some (SqliteError "near CREATE: syntax error"))
           (fun script size => (size + N.of_nat (String.length script))%N)
           (fun _ => None) (fun _ => None) (fun _ => PyInt 1).


(** ** Examples *)

Example ex_select :
  build_select DefaultQueryBuilder person (Some "age > ?") (Some "age") (Some 10) None
  = Return "SELECT ID,name,age FROM person WHERE age > ? ORDER BY age LIMIT 10".
Proof. reflexivity. Qed.

Example ex_insert2 :
  build_insert DefaultQueryBuilder person [PyStr "Kent"; PyInt 42] None
  = Return "INSERT INTO person (name,age) VALUES (?,?) ".
Proof. reflexivity. Qed.

Example ex_update :
  build_update DefaultQueryBuilder person (Some "name=?") (Some ["age"])
  = Return "UPDATE person SET age=? WHERE name=?".
Proof. reflexivity. Qed.

Example ex_limit_neg :
  build_select DefaultQueryBuilder person None None (Some (-5)) (Some ["name"])
  = Return "SELECT name FROM person LIMIT -5".
Proof. reflexivity. Qed.

Example ex_open_fresh :
  scripts_run (w_trace (snd (DataSource_open quiet_engine demo_heap demo_source None None world0)))
  = [SETUP_SCRIPT].
Proof. vm_compute. reflexivity. Qed.

Example ex_open_existing :
  scripts_run (w_trace (snd (DataSource_open quiet_engine demo_heap demo_source None None world_with_db)))
  = [].
Proof. vm_compute. reflexivity. Qed.

Example ex_select_single :
  fst (TableContext_select_single quiet_engine no_rename demo_table_context
         (Some "name=?") (Some [PyStr "Dunno"]) None None None world0)
  = Return None.
Proof. vm_compute. reflexivity. Qed.

(** ** Properties of the query builder *)

Lemma py_slice_from_last {A} (l : list A) (k : nat) :
  (1 <= k <= length l)%nat -> py_slice_from l (- Z.of_nat k) = drop (length l - k) l.
Proof.
  intros Hk. unfold py_slice_from.
  destruct (Z.ltb_spec (- Z.of_nat k) 0) as [_ | Hge]; [| lia].
  f_equal. lia.
Qed.

(** [l[-0:]] is [l[0:]], the whole list. *)
Lemma py_slice_from_minus_zero {A} (l : list A) : py_slice_from l (- Z.of_nat 0) = l.
Proof. unfold py_slice_from. simpl. rewrite Z.min_l by lia. reflexivity. Qed.

(** X1. With at least one value and fewer values than columns, the statement
    names the last [K] declared columns, in order, and has [K] placeholders. *)
Lemma build_insert_right_aligned (qb : QueryBuilder) (t : Table) (values : list pyval) :
  (1 <= length values < length (columns t))%nat ->
  build_insert qb t values None
  = Return ("INSERT INTO " +:+ name t +:+ " ("
            +:+ join "," (drop (length (columns t) - length values) (columns t))
            +:+ ") VALUES (" +:+ join "," (replicate (length values) "?") +:+ ") ").
Proof.
  intros [H1 H2]. unfold build_insert. simpl.
  destruct (Nat.ltb_spec (length values) (length (columns t))) as [_ | Hge]; [| lia].
  rewrite py_slice_from_last by lia. reflexivity.
Qed.

Lemma build_insert_right_aligned_length (t : Table) (values : list pyval) :
  (length values < length (columns t))%nat ->
  length (drop (length (columns t) - length values) (columns t)) = length values.
Proof. intros H. rewrite length_drop. lia. Qed.

(** C3. An insert of no value at all ([K = 0]) with the column list
    defaulted does not target the last zero columns: the slice
    [columns[-0:]] is the whole list, so the statement names every declared
    column and has no placeholder. *)
Theorem C3_build_insert_no_value_names_all_columns (qb : QueryBuilder) (t : Table) :
  build_insert qb t [] None
  = Return ("INSERT INTO " +:+ name t +:+ " (" +:+ join "," (columns t) +:+ ") VALUES () ").
Proof.
  unfold build_insert. cbn [seq_truthy length].
  destruct (0 <? length (columns t))%nat; [| reflexivity].
  rewrite (py_slice_from_minus_zero (columns t)). reflexivity.
Qed.

Example ex_insert0 :
  build_insert DefaultQueryBuilder person [] None
  = Return "INSERT INTO person (ID,name,age) VALUES () ".
Proof. reflexivity. Qed.

(** C7. Without a where fragment [build_delete] reads [self.name], and a
    query builder has no such attribute: the call fails with
    [AttributeError] where an unconditional [DELETE FROM <table>] was meant. *)
Theorem C7_build_delete_without_where_fails (qb : QueryBuilder) (t : Table) :
  build_delete qb t None
  = Raise (AttributeError "'QueryBuilder' object has no attribute 'name'")
  /\ build_delete qb t (Some "")
     = Raise (AttributeError "'QueryBuilder' object has no attribute 'name'").
Proof. split; reflexivity. Qed.

(** With a where fragment the statement is rendered from the table. *)
Lemma build_delete_where (qb : QueryBuilder) (t : Table) (w : string) :
  w <> "" ->
  build_delete qb t (Some w) = Return ("DELETE FROM " +:+ name t +:+ " WHERE " +:+ w).
Proof.
  intros Hw. unfold build_delete, str_truthy.
  destruct (String.eqb_spec w ""); [done | reflexivity].
Qed.

(** No builder call ends in an error for want of columns. *)
Lemma build_select_returns (qb : QueryBuilder) (t : Table) (where_ orderby : option string)
    (limit : option Z) (cols : option (list string)) :
  raises (build_select qb t where_ orderby limit cols) = false.
Proof. reflexivity. Qed.




Lemma string_app_empty_r (s : string) : s +:+ "" = s.
Proof.
  induction s as [| a s IH]; [reflexivity |].
  change (String a s +:+ "") with (String a (s +:+ "")). now rewrite IH.
Qed.

Lemma string_app_assoc (a b c : string) : (a +:+ b) +:+ c = a +:+ (b +:+ c).
Proof.
  induction a as [| x a IH]; [reflexivity |].
  change (String x (a +:+ b) +:+ c = String x (a +:+ (b +:+ c))).
  change (String x ((a +:+ b) +:+ c) = String x (a +:+ (b +:+ c))). now rewrite IH.
Qed.

(** ** Properties of the execution context *)

Ltac unfold_monad :=
  unfold mbind, M_bind, mret, M_ret, raise, lift_outcome, try_except, try_finally,
         lift, get_self, put_self in *.

Section Properties.

Variable eng : Engine.
Variable heap : schema_ref -> Schema.
Variable rename_fields : list string -> list string.

(** [execute] makes exactly one call on the engine, with the parameters
    only when they are truthy. *)
Lemma execute_spec (self : ExecutionContext) (q : string) (params : option (list pyval))
    (w : world) :
  let p := if seq_truthy params then params else None in
  w_trace (snd (execute eng self q params w)) = w_trace w ++ [EvExecute (cur self) q p]
  /\ fst (execute eng self q params w)
     = match execute_result eng (w_trace w) q p with
       | Return rows => Return (RowCursor rows)
       | Raise e => Raise e
       end.
Proof.
  unfold execute, cursor_execute. unfold_monad.
  destruct (seq_truthy params); cbn;
    match goal with |- context [execute_result ?e ?t ?q ?p] =>
      destruct (execute_result e t q p) end; cbn; auto.
Qed.

(** C9. With non-empty [where_values], [update_record] executes the
    statement of [build_update] with the parameter list [new_values]
    followed by [where_values]; in that statement the SET clause, with one
    placeholder per column, comes before the WHERE clause. *)
Theorem C9_update_record_parameters (self : ExecutionContext) (s : Schema) (table : Table)
    (new_values : list pyval) (where_ : option string) (where_values : list pyval)
    (columns_arg : option (list string)) (w : world) :
  schema self = Some s -> where_values <> [] ->
  let set_clause := join ", " (map (fun c => c +:+ "=?") (default (columns table) columns_arg)) in
  let where_clause := if str_truthy where_ then " WHERE " +:+ default "" where_ else "" in
  let q := "UPDATE " +:+ name table +:+ " SET " +:+ set_clause +:+ where_clause in
  build_update (query_builder s) table where_ columns_arg = Return q
  /\ w_trace (snd (update_record eng self table new_values where_ (Some where_values)
                                 columns_arg w))
     = w_trace w ++ [EvExecute (cur self) q (Some (new_values ++ where_values))].
Proof.
  intros Hs Hwv set_clause where_clause q.
  assert (Hq : build_update (query_builder s) table where_ columns_arg = Return q).
  { unfold build_update, q, where_clause, set_clause.
    destruct columns_arg; cbn [default from_option];
      destruct (str_truthy where_); try reflexivity;
      cbv iota; now rewrite string_app_empty_r. }
  split; [exact Hq |].
  unfold update_record, schema_query_builder. rewrite Hs. unfold_monad. rewrite Hq.
  destruct where_values as [| v vs]; [done |]. cbn [seq_truthy default from_option].
  pose proof (execute_spec self q (Some (new_values ++ v :: vs)) w) as [Ht _].
  destruct new_values; exact Ht.
Qed.

(** A cursor over no row maps to the empty sequence; an empty list or
    [None] in its place is rejected. *)
Lemma to_table_empty_cursor (t : Table) (cols : option (list string)) :
  to_table rename_fields t (RowCursor []) cols = Return [].
Proof. unfold to_table. cbn. destruct (_proto t), (seq_truthy cols); reflexivity. Qed.

Lemma to_table_empty_list (t : Table) (cols : option (list string)) :
  to_table rename_fields t (RowList []) cols = Raise (ValueError "Invalid row_tuples")
  /\ to_table rename_fields t RowNone cols = Raise (ValueError "Invalid row_tuples").
Proof. split; reflexivity. Qed.

Lemma select_record_no_match (self : ExecutionContext) (s : Schema) (t : Table)
    (where_ : option string) (values : option (list pyval)) (orderby : option string)
    (limit : option Z) (cols : option (list string)) (w : world) (q : string) :
  schema self = Some s ->
  build_select (query_builder s) t where_ orderby limit cols = Return q ->
  execute_result eng (w_trace w) q (if seq_truthy values then values else None) = Return [] ->
  fst (select_record eng rename_fields self t where_ values orderby limit cols w) = Return [].
Proof.
  intros Hs Hq Hrows. unfold select_record, schema_query_builder. rewrite Hs.
  unfold_monad. rewrite Hq.
  pose proof (execute_spec self q values w) as [_ Hr]. cbn zeta in Hr. rewrite Hrows in Hr.
  destruct (execute eng self q values w) as [r w'] eqn:He. cbn in Hr. subst r.
  rewrite to_table_empty_cursor. reflexivity.
Qed.

(** C5. When the statement of a select matches no row, [select] returns
    the empty sequence and [select_single] returns [None]; [by_id] and
    [select_object_by_id], whose predicate is the identity of the row,
    return [None] as well.  None of them raises. *)
Theorem C5_no_match_empty_or_none (tc : TableContext) (s : Schema)
    (where_ : option string) (values : option (list pyval)) (orderby : option string)
    (limit : option Z) (cols : option (list string)) (w : world) (q : string) :
  schema (_context tc) = Some s ->
  build_select (query_builder s) (_table tc) where_ orderby limit cols = Return q ->
  execute_result eng (w_trace w) q (if seq_truthy values then values else None) = Return [] ->
  fst (TableContext_select eng rename_fields tc where_ values orderby limit cols w) = Return []
  /\ fst (TableContext_select_single eng rename_fields tc where_ values orderby limit cols w)
     = Return None
  /\ (forall ids idw,
        id_where (_table tc) = Return idw ->
        where_ = Some idw -> values = Some ids -> orderby = None -> limit = None ->
        fst (TableContext_by_id eng rename_fields tc ids cols w) = Return None
        /\ fst (select_object_by_id eng rename_fields (_context tc) (_table tc) ids cols w)
           = Return None).
Proof.
  intros Hs Hq Hrows.
  pose proof (select_record_no_match (_context tc) s (_table tc) where_ values orderby limit
                cols w q Hs Hq Hrows) as Hsel.
  split; [exact Hsel |]. split.
  - unfold TableContext_select_single. unfold_monad.
    destruct (select_record _ _ _ _ _ _ _ _ _ w) as [r w'] eqn:He. cbn in Hsel. subst r.
    reflexivity.
  - intros ids idw Hid -> -> -> ->.
    assert (fst (select_object_by_id eng rename_fields (_context tc) (_table tc) ids cols w)
            = Return None) as Hby.
    { unfold select_object_by_id. unfold_monad. rewrite Hid.
      destruct (select_record _ _ _ _ _ _ _ _ _ w) as [r w'] eqn:He. cbn in Hsel. subst r.
      reflexivity. }
    split; [exact Hby |]. exact Hby.
Qed.

Lemma close_spec (self : ExecutionContext) (w : world) (c : connection) :
  conn self = Some c ->
  close eng (self, w)
  = (Return tt,
     (set_conn None self,
      mkWorld (w_trace w ++ (if auto_commit self then [EvCommit c] else []) ++ [EvClose c])
              (w_log w ++ exit_log eng (auto_commit self) (w_trace w) c)
              (w_files w) (w_next w))).
Proof.
  intros Hc. unfold close, commit, conn_commit, conn_close, exit_log, logger_write, emit.
  unfold_monad. cbn. rewrite Hc.
  destruct (auto_commit self) eqn:Hac; cbn.
  - destruct (commit_error eng (w_trace w)) eqn:Hce; cbn;
      destruct (close_error eng (w_trace w ++ [EvCommit c])) eqn:Hcl; cbn;
      rewrite <- ?app_assoc; cbn; rewrite ?app_nil_r; reflexivity.
  - destruct (close_error eng (w_trace w)) eqn:Hcl; cbn; rewrite ?app_nil_r; reflexivity.
Qed.

(** A context that holds no connection any more is left as it is. *)
Lemma close_closed (self : ExecutionContext) (w : world) :
  conn self = None -> close eng (self, w) = (Return tt, (set_conn None self, w)).
Proof.
  intros Hc. unfold close. unfold_monad. cbn. rewrite Hc. reflexivity.
Qed.

(** Leaving a [with] block over a context that still holds its
    connection. *)
Lemma py_with_spec {A : Type} (body : M (ExecutionContext * world) A)
    (s : ExecutionContext * world) (r : outcome A) (self : ExecutionContext)
    (w : world) (c : connection) :
  body s = (r, (self, w)) -> conn self = Some c ->
  py_with eng body s
  = (match r with Return a => Return (Some a) | Raise e => Raise e end,
     (set_conn None self,
      mkWorld (w_trace w ++ (if auto_commit self then [EvCommit c] else []) ++ [EvClose c])
              (w_log w ++ exit_log eng (auto_commit self) (w_trace w) c)
              (w_files w) (w_next w))).
Proof.
  intros Hbody Hc. unfold py_with, __exit__. rewrite Hbody.
  unfold_monad. rewrite (close_spec self w c Hc).
  destruct r; reflexivity.
Qed.

(** C1. Whether the body of a scoped context returns or raises, leaving
    the scope commits the connection exactly when [auto_commit] is set and
    then closes it, and the context lets go of it; a failure of the commit
    or of the close is logged and goes no further, and the outcome of the
    body, value or exception, is the outcome of the whole statement. *)
Theorem C1_scope_exit_releases_connection {A : Type}
    (body : M (ExecutionContext * world) A) (s : ExecutionContext * world)
    (r : outcome A) (self : ExecutionContext) (w : world) (c : connection) :
  body s = (r, (self, w)) -> conn self = Some c ->
  let res := py_with eng body s in
  fst res = match r with Return a => Return (Some a) | Raise e => Raise e end
  /\ conn (fst (snd res)) = None
  /\ w_trace (snd (snd res))
     = w_trace w ++ (if auto_commit self then [EvCommit c] else []) ++ [EvClose c]
  /\ w_log (snd (snd res)) = w_log w ++ exit_log eng (auto_commit self) (w_trace w) c.
Proof.
  intros Hbody Hc res. subst res.
  rewrite (py_with_spec body s r self w c Hbody Hc). cbn.
  destruct r; repeat split; reflexivity.
Qed.

(** *** Deleting an object through a table *)

Lemma statements_run_app (t1 t2 : list event) :
  statements_run (t1 ++ t2) = statements_run t1 ++ statements_run t2.
Proof. unfold statements_run. apply omap_app. Qed.

Lemma scripts_run_app (t1 t2 : list event) :
  scripts_run (t1 ++ t2) = scripts_run t1 ++ scripts_run t2.
Proof. unfold scripts_run. apply omap_app. Qed.

Lemma cursor_executescript_statements (c : connection) (script : string) (w : world) :
  statements_run (w_trace (snd (cursor_executescript eng c script w)))
  = statements_run (w_trace w).
Proof.
  unfold cursor_executescript. destruct (script_error eng (w_trace w) script); cbn;
    rewrite statements_run_app; cbn; apply app_nil_r.
Qed.

(** Opening a context executes no statement, and a context that was
    opened holds the connection of its cursor. *)
Lemma DataSource_open_statements (ds : DataSource) (ac : option bool)
    (sch : option Schema) (w : world) :
  statements_run (w_trace (snd (DataSource_open eng heap ds ac sch w)))
  = statements_run (w_trace w).
Proof.
  unfold DataSource_open, ExecutionContext_init, sqlite3_connect, setup_required,
    logger_write.
  unfold_monad.
  destruct (connect_error eng (w_trace w) (path ds)); cbn.
  { rewrite statements_run_app. cbn. apply app_nil_r. }
  match goal with |- context [if ?b then _ else _] => destruct b end; cbn.
  2: { rewrite statements_run_app. cbn. apply app_nil_r. }
  assert (Hstep : forall (o : option string) (c : connection) (w0 : world),
            statements_run (w_trace (snd (match o with
                                          | Some script => cursor_executescript eng c script
                                          | None => fun s => (Return tt, s)
                                          end w0)))
            = statements_run (w_trace w0)).
  { intros [script |] c w0; [apply cursor_executescript_statements | reflexivity]. }
  match goal with |- context [match _setup_file ds with _ => _ end ?w0] =>
    pose proof (Hstep (_setup_file ds) (mkConnection (w_next w) (path ds)) w0) as H1;
    destruct (match _setup_file ds with
              | Some script => cursor_executescript eng (mkConnection (w_next w) (path ds)) script
              | None => fun s => (Return tt, s)
              end w0) as [[[] | e] w2] eqn:E1
  end; cbn in H1 |- *.
  2: { rewrite H1. cbn. rewrite statements_run_app. cbn. apply app_nil_r. }
  pose proof (Hstep (_setup_script ds) (mkConnection (w_next w) (path ds)) w2) as H2.
  destruct (match _setup_script ds with
            | Some script => cursor_executescript eng (mkConnection (w_next w) (path ds)) script
            | None => fun s => (Return tt, s)
            end w2) as [[[] | e] w3] eqn:E2; cbn in H2 |- *;
    rewrite H2, H1; cbn; rewrite statements_run_app; cbn; apply app_nil_r.
Qed.

Lemma DataSource_open_conn (ds : DataSource) (ac : option bool) (sch : option Schema)
    (w w1 : world) (exe : ExecutionContext) :
  DataSource_open eng heap ds ac sch w = (Return exe, w1) -> conn exe = Some (cur exe).
Proof.
  unfold DataSource_open, ExecutionContext_init, sqlite3_connect, setup_required,
    logger_write, cursor_executescript.
  unfold_monad.
  destruct (connect_error eng (w_trace w) (path ds)); cbn; [discriminate |].
  match goal with |- context [if ?b then _ else _] => destruct b end; cbn.
  2: { intros [= <- _]. reflexivity. }
  destruct (_setup_file ds), (_setup_script ds); cbn;
    repeat (match goal with
            | |- context [script_error ?e ?t ?s] => destruct (script_error e t s)
            end; cbn);
    try discriminate; intros [= <- _]; reflexivity.
Qed.

Lemma string_app_nonempty (a b : string) : a <> "" -> a +:+ b <> "".
Proof. destruct a; [done | discriminate]. Qed.

Lemma placeholder_nonempty (c : string) : c +:+ "=?" <> "".
Proof. destruct c; discriminate. Qed.

(** The identity predicate of a table with at least one id column is not
    the empty string. *)
Lemma id_where_nonempty (sep : string) (ids : list string) :
  ids <> [] -> join sep (map (fun c => c +:+ "=?") ids) <> "".
Proof.
  destruct ids as [| c [| c' rest]]; [done | |]; intros _.
  - apply placeholder_nonempty.
  - cbn. apply string_app_nonempty, placeholder_nonempty.
Qed.

Lemma map_outcome_length {A B} (f : A -> outcome B) (l : list A) (l' : list B) :
  map_outcome f l = Return l' -> length l' = length l.
Proof.
  revert l'. induction l as [| x xs IH]; intros l'; cbn.
  - intros [= <-]. reflexivity.
  - destruct (f x); [| discriminate]. destruct (map_outcome f xs); [| discriminate].
    intros [= <-]. cbn. f_equal. now apply IH.
Qed.

(** The delete of an object on a context bound to a schema: one DELETE
    statement whose predicate is the identity of the object. *)
Lemma delete_object_spec (exe : ExecutionContext) (s : Schema) (t : Table)
    (obj : pyobject) (ids : list string) (vals : list pyval) (w : world) :
  schema exe = Some s -> _id_cols t = Some ids -> ids <> [] ->
  getattrs obj ids = Return vals ->
  let q := "DELETE FROM " +:+ name t +:+ " WHERE "
           +:+ join " AND " (map (fun c => c +:+ "=?") ids) in
  w_trace (snd (delete_object eng exe t obj w))
  = w_trace w ++ [EvExecute (cur exe) q (Some vals)]
  /\ fst (delete_object eng exe t obj w)
     = match execute_result eng (w_trace w) q (Some vals) with
       | Return _ => Return PyNone
       | Raise e => Raise e
       end.
Proof.
  intros Hs Hid Hne Hvals q.
  unfold delete_object, delete_record, schema_query_builder, id_where.
  rewrite Hid, Hs. unfold_monad. change (default [] (Some ids)) with ids. rewrite Hvals.
  rewrite (build_delete_where _ _ _ (id_where_nonempty " AND " ids Hne)).
  fold q.
  assert (Hp : seq_truthy (Some vals) = true).
  { apply map_outcome_length in Hvals. destruct vals, ids; try done. }
  pose proof (execute_spec exe q (Some vals) w) as [Ht Hr]. cbn zeta in Ht, Hr.
  rewrite Hp in Ht, Hr.
  destruct (execute eng exe q (Some vals) w) as [r w'] eqn:He. cbn in Ht, Hr.
  subst r. destruct (execute_result eng (w_trace w) q (Some vals)); cbn; auto.
Qed.

(** Without a context, [Table.delete_obj] raises and executes no statement,
    whether or not the context could be opened. *)
Lemma Table_delete_obj_never_executes (t : Table) (obj : pyobject) (w : world) :
  raises (fst (Table_delete_obj eng heap t obj None w)) = true
  /\ statements_run (w_trace (snd (Table_delete_obj eng heap t obj None w)))
     = statements_run (w_trace w).
Proof.
  unfold Table_delete_obj, with_open, Table_open.
  destruct (_data_source t) as [ds |]; [| split; reflexivity].
  pose proof (DataSource_open_statements ds None None w) as Hst.
  destruct (DataSource_open eng heap ds None None w) as [[exe | e] w1] eqn:Hopen;
    [| split; [reflexivity | exact Hst]].
  pose proof (DataSource_open_conn _ _ _ _ _ _ Hopen) as Hconn.
  erewrite py_with_spec; [| | exact Hconn].
  2: { unfold Table_ctx, TableContext_init, TableContext_delete_obj, fresh_id.
       unfold_monad. cbn. reflexivity. }
  cbn in Hst |- *. split; [reflexivity |].
  rewrite !statements_run_app. cbn.
  destruct (auto_commit exe); cbn; rewrite ?app_nil_r; exact Hst.
Qed.

(** C10. [Table.delete_obj(obj)] with no execution context opens one and
    calls its [delete_obj] without the object: the call raises the
    missing-argument [TypeError] and executes no statement, so no row is
    deleted.  With an execution context given, the same call executes the
    identity-based DELETE of [obj]. *)
Theorem C10_delete_obj_without_context_raises (t : Table) (obj : pyobject) (w w1 : world)
    (opened exe : ExecutionContext) (s : Schema) (ids : list string) (vals : list pyval) :
  Table_open eng heap t w = (Return opened, w1) ->
  schema exe = Some s -> _id_cols t = Some ids -> ids <> [] ->
  getattrs obj ids = Return vals ->
  let q := "DELETE FROM " +:+ name t +:+ " WHERE "
           +:+ join " AND " (map (fun c => c +:+ "=?") ids) in
  fst (Table_delete_obj eng heap t obj None w)
  = Raise (TypeError "delete_obj() missing 1 required positional argument: 'obj'")
  /\ statements_run (w_trace (snd (Table_delete_obj eng heap t obj None w)))
     = statements_run (w_trace w)
  /\ w_trace (snd (Table_delete_obj eng heap t obj (Some exe) w))
     = w_trace w ++ [EvExecute (cur exe) q (Some vals)]
  /\ fst (Table_delete_obj eng heap t obj (Some exe) w)
     = match execute_result eng (w_trace w) q (Some vals) with
       | Return _ => Return (Some PyNone)
       | Raise e => Raise e
       end.
Proof.
  intros Hopen Hs Hid Hne Hvals q.
  split; [| split; [apply Table_delete_obj_never_executes |]].
  - unfold Table_delete_obj, with_open. rewrite Hopen.
    assert (Hconn : conn opened = Some (cur opened)).
    { unfold Table_open in Hopen. destruct (_data_source t); [| discriminate].
      eapply DataSource_open_conn, Hopen. }
    erewrite py_with_spec; [| | exact Hconn].
    2: { unfold Table_ctx, TableContext_init, TableContext_delete_obj, fresh_id.
         unfold_monad. cbn. reflexivity. }
    reflexivity.
  - unfold Table_delete_obj, Table_ctx, TableContext_init, TableContext_delete_obj, fresh_id.
    unfold_monad. cbn [_context _table].
    set (w' := mkWorld (w_trace w) (w_log w) (w_files w) (S (w_next w))).
    pose proof (delete_object_spec exe s t obj ids vals w' Hs Hid Hne Hvals) as [Ht Hr].
    fold q in Ht, Hr.
    destruct (delete_object eng exe t obj w') as [r w2] eqn:Hd. cbn in Ht, Hr. subst r.
    change (w_trace w') with (w_trace w) in *.
    destruct (execute_result eng (w_trace w) q (Some vals)); cbn; auto.
Qed.

(** *** save *)

Lemma save_existed_falsy (obj : pyobject) (ids : list string) (e0 : pyval) :
  truthy e0 = false -> save_existed obj ids e0 = Return e0.
Proof. intros H. induction ids as [| i rest IH]; cbn; [| rewrite H]; auto. Qed.

Lemma save_existed_truthy (obj : pyobject) (ids : list string) (e0 : pyval) :
  truthy e0 = true -> forallb (attr_truthy obj) ids = true ->
  exists v, save_existed obj ids e0 = Return v /\ truthy v = true.
Proof.
  revert e0. induction ids as [| i rest IH]; intros e0 He Hall; cbn.
  - eauto.
  - rewrite He. cbn in Hall. apply andb_prop in Hall as [Hi Hrest].
    unfold attr_truthy in Hi. unfold getattr.
    destruct (obj !! i) as [v |]; [| discriminate]. now apply IH.
Qed.

Lemma save_existed_app (obj : pyobject) (pre l : list string) (e0 : pyval) :
  truthy e0 = true -> forallb (attr_truthy obj) pre = true ->
  exists v, truthy v = true /\ save_existed obj (pre ++ l) e0 = save_existed obj l v.
Proof.
  revert e0. induction pre as [| i pre IH]; intros e0 He Hall; cbn.
  - eauto.
  - rewrite He. cbn in Hall. apply andb_prop in Hall as [Hi Hpre].
    unfold attr_truthy in Hi. unfold getattr.
    destruct (obj !! i) as [v |]; [| discriminate]. now apply IH.
Qed.

(** C2, amended. For a table with declared id columns, [save] reads the
    id-column attributes of the object in declared order and stops at the
    first one that is not truthy.  It updates when every id-column attribute
    holds a truthy value.  It inserts when the first id-column attribute that
    does not hold a truthy value is on the object and falsy, whatever the
    later ones are (set or not): so it inserts whenever the first id-column
    attribute is there and falsy.  When that attribute is missing from the
    object, [save] raises [AttributeError] and executes nothing. *)
Theorem C2_save_updates_or_inserts (tc : TableContext) (obj : pyobject)
    (ids : list string) (cols : option (list string)) (w : world) :
  _id_cols (_table tc) = Some ids ->
  (forallb (attr_truthy obj) ids = true ->
     TableContext_save eng tc obj cols w = update_object eng (_context tc) (_table tc) obj cols w)
  /\ (forall pre i rest,
        ids = pre ++ i :: rest -> forallb (attr_truthy obj) pre = true ->
        (attr_falsy obj i = true ->
           TableContext_save eng tc obj cols w
           = insert_object eng (_context tc) (_table tc) obj cols w)
        /\ (obj !! i = None ->
              TableContext_save eng tc obj cols w
              = (Raise (AttributeError ("object has no attribute '" +:+ i +:+ "'")), w))).
Proof.
  intros Hid. unfold TableContext_save. rewrite Hid. unfold_monad. split.
  - intros Hall.
    destruct (save_existed_truthy obj ids (PyBool true) eq_refl Hall) as (v & -> & ->).
    reflexivity.
  - intros pre i rest -> Hpre.
    destruct (save_existed_app obj pre (i :: rest) (PyBool true) eq_refl Hpre)
      as (v & Hv & ->).
    cbn [save_existed]. rewrite Hv. unfold getattr. split.
    + intros Hi. unfold attr_falsy in Hi.
      destruct (obj !! i) as [u |]; [| discriminate].
      apply negb_true_iff in Hi. rewrite (save_existed_falsy _ _ _ Hi), Hi. reflexivity.
    + intros Hi. rewrite Hi. reflexivity.
Qed.

(** *** Setup on open *)

Lemma has_content_lookup (w : world) (p : string) :
  has_content w p = true <-> exists n, w_files w !! p = Some n /\ n <> 0%N.
Proof.
  unfold has_content, isfile, getsize. split.
  - intros H. apply andb_prop in H as [H1 H2].
    apply bool_decide_eq_true in H1 as [n Hn]. rewrite Hn in H2. cbn in H2.
    exists n. split; [done |]. apply negb_true_iff, N.eqb_neq in H2. done.
  - intros (n & Hn & Hne). rewrite Hn. cbn.
    apply negb_true_iff, N.eqb_neq. done.
Qed.

Lemma create_if_absent_present (p : string) (files : gmap string N) (n : N) :
  files !! p = Some n -> create_if_absent p files = files.
Proof. intros H. unfold create_if_absent. rewrite H. now destruct (names_no_file p). Qed.

(** Opening a store that has content: the connection is made and nothing
    else happens. *)
Lemma DataSource_open_with_content (ds : DataSource) (ac : option bool)
    (sch : option Schema) (w : world) :
  has_content w (path ds) = true ->
  snd (DataSource_open eng heap ds ac sch w)
  = mkWorld (w_trace w ++ [EvConnect (mkConnection (w_next w) (path ds))])
            (w_log w) (w_files w) (S (w_next w)).
Proof.
  intros Hc. pose proof Hc as Hc'. apply has_content_lookup in Hc' as (n & Hn & Hne).
  unfold DataSource_open, ExecutionContext_init, sqlite3_connect, setup_required.
  unfold_monad.
  destruct (connect_error eng (w_trace w) (path ds)); cbn; [reflexivity |].
  rewrite (create_if_absent_present _ _ _ Hn).
  unfold isfile, getsize, set_files. cbn. rewrite Hn. cbn.
  apply N.eqb_neq in Hne. rewrite Hne. cbn. reflexivity.
Qed.

Lemma open_many_with_content (ds : DataSource) (n : nat) (w : world) :
  has_content w (path ds) = true ->
  scripts_run (w_trace (open_many eng heap ds n w)) = scripts_run (w_trace w)
  /\ w_files (open_many eng heap ds n w) = w_files w.
Proof.
  revert w. induction n as [| n IH]; intros w Hc; cbn [open_many]; [done |].
  rewrite (DataSource_open_with_content ds None None w Hc).
  set (w1 := mkWorld _ _ _ _).
  assert (Hc1 : has_content w1 (path ds) = true) by exact Hc.
  destruct (IH w1 Hc1) as [Hs Hf]. rewrite Hs, Hf. subst w1. cbn.
  rewrite scripts_run_app. cbn. now rewrite app_nil_r.
Qed.

(** On a store that is absent or empty, and with an engine that accepts
    the connection and the scripts, [open] runs the text of the setup file
    and then the setup script. *)
Lemma DataSource_open_runs_setup (ds : DataSource) (ac : option bool)
    (sch : option Schema) (w : world) :
  has_content w (path ds) = false ->
  (forall t p, connect_error eng t p = None) ->
  (forall t script, script_error eng t script = None) ->
  scripts_run (w_trace (snd (DataSource_open eng heap ds ac sch w)))
  = scripts_run (w_trace w) ++ option_list (_setup_file ds) ++ option_list (_setup_script ds).
Proof.
  intros Hc Hconn Hscr.
  unfold DataSource_open, ExecutionContext_init, sqlite3_connect, setup_required,
    logger_write, cursor_executescript.
  unfold_monad. rewrite Hconn. cbn.
  assert (Hreq : negb (isfile (set_files (create_if_absent (path ds) (w_files w))
                                (mkWorld (w_trace w ++ [EvConnect (mkConnection (w_next w) (path ds))])
                                         (w_log w) (w_files w) (S (w_next w)))) (path ds))
                 || (getsize (set_files (create_if_absent (path ds) (w_files w))
                                (mkWorld (w_trace w ++ [EvConnect (mkConnection (w_next w) (path ds))])
                                         (w_log w) (w_files w) (S (w_next w)))) (path ds) =? 0)%N
                 = true).
  { unfold has_content, isfile, getsize in Hc. unfold isfile, getsize, set_files,
      create_if_absent. cbn.
    destruct (w_files w !! path ds) as [n |] eqn:Hn.
    - rewrite bool_decide_eq_true_2 in Hc by eauto. cbn in Hc.
      apply negb_false_iff in Hc.
      destruct (names_no_file (path ds)); rewrite Hn; cbn;
        rewrite Hc; first [reflexivity | apply orb_true_r].
    - destruct (names_no_file (path ds)).
      + rewrite Hn. cbn. reflexivity.
      + rewrite lookup_insert_eq. cbn. first [reflexivity | apply orb_true_r]. }
  cbn in Hreq. rewrite Hreq. cbn.
  destruct (_setup_file ds), (_setup_script ds); cbn; rewrite ?Hscr; cbn;
    rewrite ?scripts_run_app; cbn; rewrite ?app_nil_r, <- ?app_assoc; reflexivity.
Qed.

Lemma emptied_externally_no_content (p : string) (w : world) :
  has_content (emptied_externally p w) p = false.
Proof.
  unfold has_content, isfile, getsize, emptied_externally, set_files. cbn.
  rewrite lookup_insert_eq. reflexivity.
Qed.

(** C4, amended. [open()] looks at the store each time it is called:
    whenever the store has content at that moment it runs no setup script,
    however many times it is called, so setup runs only at an open that
    finds the store absent or empty.  Once the store has been emptied from
    outside, the next [open()] runs the setup scripts again (on an engine
    that accepts the connection and the scripts). *)
Theorem C4_no_setup_on_store_with_content (ds : DataSource) (n : nat)
    (ac : option bool) (sch : option Schema) (w : world) :
  has_content w (path ds) = true ->
  scripts_run (w_trace (snd (DataSource_open eng heap ds ac sch w))) = scripts_run (w_trace w)
  /\ scripts_run (w_trace (open_many eng heap ds n w)) = scripts_run (w_trace w)
  /\ has_content (open_many eng heap ds n w) (path ds) = true
  /\ ((forall t p, connect_error eng t p = None) ->
      (forall t script, script_error eng t script = None) ->
      let w' := emptied_externally (path ds) (open_many eng heap ds n w) in
      scripts_run (w_trace (snd (DataSource_open eng heap ds ac sch w')))
      = scripts_run (w_trace w) ++ option_list (_setup_file ds) ++ option_list (_setup_script ds)).
Proof.
  intros Hc. destruct (open_many_with_content ds n w Hc) as [Hs Hf]. repeat split.
  - rewrite (DataSource_open_with_content ds ac sch w Hc). cbn.
    rewrite scripts_run_app. cbn. now rewrite app_nil_r.
  - exact Hs.
  - unfold has_content, isfile, getsize in *. now rewrite Hf.
  - intros Hconn Hscr w'.
    rewrite (DataSource_open_runs_setup ds ac sch w'
               (emptied_externally_no_content _ _) Hconn Hscr).
    subst w'. unfold emptied_externally, set_files. cbn [w_trace]. now rewrite Hs.
Qed.

(** *** Dynamic table access *)

Lemma getattr_cached (self : ExecutionContext) (w : world) (name : string)
    (i : nat) (t : Table) :
  name ∉ ExecutionContext_fields -> tables_cache self !! name = Some (i, t) ->
  ExecutionContext_getattr name (self, w)
  = (Return (TableAttribute (mkTableContext i t self)), (self, w)).
Proof.
  intros Hf Hc. unfold ExecutionContext_getattr. unfold_monad. simpl.
  rewrite bool_decide_eq_false_2 by exact Hf. rewrite Hc. reflexivity.
Qed.

Lemma getattr_own (self : ExecutionContext) (w : world) (name : string) :
  name ∈ own_attributes -> tables_cache self !! name = None ->
  ExecutionContext_getattr name (self, w) = (Return (OwnAttribute name), (self, w)).
Proof.
  intros Ho Hc. unfold ExecutionContext_getattr. unfold_monad. simpl.
  unfold own_attributes in Ho. apply elem_of_app in Ho as [Hf | Hm].
  - rewrite bool_decide_eq_true_2 by exact Hf. reflexivity.
  - destruct (bool_decide (name ∈ ExecutionContext_fields)); [reflexivity |].
    rewrite Hc. rewrite bool_decide_eq_true_2 by exact Hm. reflexivity.
Qed.

Lemma getattr_first_access (self : ExecutionContext) (w : world) (name : string)
    (tbl : Table) :
  name ∉ own_attributes -> tables_cache self !! name = None ->
  registered self name = Some tbl ->
  ExecutionContext_getattr name (self, w)
  = (Return (TableAttribute
               (mkTableContext (w_next w) tbl (set_cached name (w_next w, tbl) self))),
     (set_cached name (w_next w, tbl) self,
      mkWorld (w_trace w) (w_log w) (w_files w) (S (w_next w)))).
Proof.
  intros Ho Hc Hr. unfold own_attributes in Ho.
  apply not_elem_of_app in Ho as [Hf Hm].
  unfold ExecutionContext_getattr, __getattr__, fresh_id. unfold_monad. simpl.
  rewrite bool_decide_eq_false_2 by exact Hf. rewrite Hc.
  rewrite bool_decide_eq_false_2 by exact Hm. simpl.
  unfold registered in Hr. destruct (schema self) as [s |]; [| discriminate].
  rewrite Hr. cbn. rewrite lookup_insert_eq. reflexivity.
Qed.

Lemma getattr_unregistered (self : ExecutionContext) (w : world) (name : string) :
  name ∉ own_attributes -> tables_cache self !! name = None ->
  registered self name = None ->
  ExecutionContext_getattr name (self, w)
  = (Raise (AttributeError ("Attribute " +:+ name +:+ " does not exist")), (self, w)).
Proof.
  intros Ho Hc Hr. unfold own_attributes in Ho.
  apply not_elem_of_app in Ho as [Hf Hm].
  unfold ExecutionContext_getattr, __getattr__. unfold_monad. simpl.
  rewrite bool_decide_eq_false_2 by exact Hf. rewrite Hc.
  rewrite bool_decide_eq_false_2 by exact Hm. simpl.
  unfold registered in Hr. destruct (schema self) as [s |]; [| reflexivity].
  rewrite Hr. reflexivity.
Qed.

(** An entry of the cache stays, with its identity and its table, through
    every later access and through [close]. *)
Lemma run_op_keeps_cache (op : ctx_op) (s : ExecutionContext * world)
    (n : string) (v : nat * Table) :
  tables_cache (fst s) !! n = Some v ->
  tables_cache (fst (run_op eng op s)) !! n = Some v.
Proof.
  destruct s as [self w]. cbn [fst]. intros Hn. destruct op as [a |]; cbn [run_op].
  - unfold ExecutionContext_getattr, __getattr__, fresh_id. unfold_monad. simpl.
    match goal with |- context [bool_decide ?P] => destruct (bool_decide P) end;
      simpl; [exact Hn |].
    destruct (tables_cache self !! a) as [[i t] |] eqn:Ha; simpl; [exact Hn |].
    match goal with |- context [bool_decide ?P] => destruct (bool_decide P) end;
      simpl; [exact Hn |].
    destruct (schema self) as [sch |]; [| exact Hn].
    destruct (_tables sch !! a) as [tbl |]; [| exact Hn].
    cbn. rewrite lookup_insert_eq. cbn.
    rewrite lookup_insert_ne; [exact Hn |]. intros ->. congruence.
  - destruct (conn self) as [c |] eqn:Hc.
    + rewrite (close_spec self w c Hc). exact Hn.
    + rewrite (close_closed self w Hc). exact Hn.
Qed.

Lemma run_ops_keeps_cache (ops : list ctx_op) (s : ExecutionContext * world)
    (n : string) (v : nat * Table) :
  tables_cache (fst s) !! n = Some v ->
  tables_cache (fst (run_ops eng ops s)) !! n = Some v.
Proof.
  revert s. induction ops as [| op ops IH]; intros s Hn; [exact Hn |].
  cbn. apply IH, run_op_keeps_cache, Hn.
Qed.

Lemma getattr_cached_state (s : ExecutionContext * world) (name : string)
    (i : nat) (t : Table) :
  name ∉ ExecutionContext_fields -> tables_cache (fst s) !! name = Some (i, t) ->
  exists tc, ExecutionContext_getattr name s = (Return (TableAttribute tc), s)
             /\ tc_id tc = i /\ _table tc = t.
Proof.
  destruct s as [self w]. intros Hf Hc. eexists. split; [apply getattr_cached; eauto |].
  split; reflexivity.
Qed.

(** C6, amended. Let [name] be none of the context's own attributes and
    methods.  If [name] is not a table of the bound schema (or no schema
    is bound), accessing it fails with the unknown-table error, an
    [AttributeError].  If it is, the access yields a table context for
    that table, and every later access, after any other accesses and after
    [close], yields the same table context: the same identity and the same
    table, with nothing new built. *)
Theorem C6_dynamic_table_access (self : ExecutionContext) (w : world) (name : string) :
  name ∉ own_attributes -> cache_sound self ->
  match registered self name with
  | None =>
      ExecutionContext_getattr name (self, w)
      = (Raise (AttributeError ("Attribute " +:+ name +:+ " does not exist")), (self, w))
  | Some tbl =>
      exists tc st,
        ExecutionContext_getattr name (self, w) = (Return (TableAttribute tc), st)
        /\ _table tc = tbl
        /\ forall ops, exists tc',
             ExecutionContext_getattr name (run_ops eng ops st)
             = (Return (TableAttribute tc'), run_ops eng ops st)
             /\ tc_id tc' = tc_id tc /\ _table tc' = tbl
  end.
Proof.
  intros Ho Hsound.
  assert (Hf : name ∉ ExecutionContext_fields).
  { unfold own_attributes in Ho. now apply not_elem_of_app in Ho as [Hf _]. }
  destruct (registered self name) as [tbl |] eqn:Hr.
  - destruct (tables_cache self !! name) as [[i t] |] eqn:Hc.
    + assert (t = tbl) as ->.
      { destruct (Hsound _ _ _ Hc) as (s & Hs & Ht). unfold registered in Hr.
        rewrite Hs in Hr. congruence. }
      exists (mkTableContext i tbl self), (self, w).
      split; [now apply getattr_cached |]. split; [reflexivity |].
      intros ops. apply getattr_cached_state; [exact Hf |].
      now apply run_ops_keeps_cache.
    + eexists _, _. split; [eapply getattr_first_access; eassumption |].
      split; [reflexivity |].
      intros ops. apply getattr_cached_state; [exact Hf |].
      apply run_ops_keeps_cache. cbn. apply lookup_insert_eq.
  - apply getattr_unregistered; [exact Ho | | exact Hr].
    destruct (tables_cache self !! name) as [[i t] |] eqn:Hc; [| reflexivity].
    destruct (Hsound _ _ _ Hc) as (s & Hs & Ht). unfold registered in Hr.
    rewrite Hs in Hr. congruence.
Qed.

(** Every access keeps the cache sound. *)
Lemma run_op_cache_sound (op : ctx_op) (s : ExecutionContext * world) :
  cache_sound (fst s) -> cache_sound (fst (run_op eng op s)).
Proof.
  destruct s as [self w]. cbn [fst]. intros Hs. destruct op as [a |]; cbn [run_op].
  - unfold ExecutionContext_getattr, __getattr__, fresh_id. unfold_monad. simpl.
    match goal with |- context [bool_decide ?P] => destruct (bool_decide P) end;
      simpl; [exact Hs |].
    destruct (tables_cache self !! a) as [[i t] |] eqn:Ha; simpl; [exact Hs |].
    match goal with |- context [bool_decide ?P] => destruct (bool_decide P) end;
      simpl; [exact Hs |].
    destruct (schema self) as [sch |] eqn:Hsch; [| exact Hs].
    destruct (_tables sch !! a) as [tbl |] eqn:Htbl; [| exact Hs].
    cbn. rewrite lookup_insert_eq. cbn.
    intros n i t Hn. cbn in Hn |- *.
    destruct (decide (a = n)) as [-> | Hne].
    + rewrite lookup_insert_eq in Hn. injection Hn as <- <-. eauto.
    + rewrite lookup_insert_ne in Hn by exact Hne.
      destruct (Hs _ _ _ Hn) as (s' & Hs' & Ht). rewrite Hsch in Hs'.
      injection Hs' as <-. eauto.
  - destruct (conn self) as [c |] eqn:Hc.
    + rewrite (close_spec self w c Hc). exact Hs.
    + rewrite (close_closed self w Hc). exact Hs.
Qed.

End Properties.

(** ** The properties at concrete inputs *)

Lemma C1_scope_exit_releases_connection_witness :
  let res := py_with failing_engine failing_body (demo_context, world0) in
  fst res = Raise (ValueError "boom")
  /\ conn (fst (snd res)) = None
  /\ w_trace (snd (snd res)) = [EvCommit demo_connection; EvClose demo_connection]
  /\ w_log (snd (snd res))
     = ["Cannot commit changes. e = disk I/O error"; "Error while closing connection"].
Proof.
  apply (C1_scope_exit_releases_connection failing_engine failing_body
           (demo_context, world0) (Raise (ValueError "boom")) demo_context world0
           demo_connection); reflexivity.
Defined.

(** C2, as stated, fails: an object on which the id attribute is absent is
    not inserted.  [save] raises [AttributeError] and executes nothing,
    where [insert_object] would have executed the INSERT. *)
Lemma C2_counterexample :
  anonymous !! "ID" = None
  /\ TableContext_save quiet_engine demo_table_context anonymous (Some ["name"; "age"]) world0
     = (Raise (AttributeError "object has no attribute 'ID'"), world0)
  /\ statements_run
       (w_trace (snd (insert_object quiet_engine demo_context person anonymous
                                    (Some ["name"; "age"]) world0)))
     = ["INSERT INTO person (name,age) VALUES (?,?) "].
Proof. repeat split; vm_compute; reflexivity. Qed.

Lemma C2_save_updates_or_inserts_witness :
  TableContext_save quiet_engine demo_table_context saved_person None world0
  = update_object quiet_engine demo_context person saved_person None world0
  /\ TableContext_save quiet_engine demo_table_context new_person None world0
     = insert_object quiet_engine demo_context person new_person None world0
  /\ (unplaced !! "course" = None
      /\ TableContext_save quiet_engine enrolment_context unplaced (Some ["grade"]) world0
         = insert_object quiet_engine demo_context enrolment unplaced (Some ["grade"]) world0)
  /\ TableContext_save quiet_engine enrolment_context placed_nowhere None world0
     = insert_object quiet_engine demo_context enrolment placed_nowhere None world0
  /\ TableContext_save quiet_engine enrolment_context courseless None world0
     = (Raise (AttributeError "object has no attribute 'course'"), world0).
Proof.
  split; [| split; [| split; [split; [reflexivity |] | split]]].
  - apply (proj1 (C2_save_updates_or_inserts quiet_engine demo_table_context saved_person
                    ["ID"] None world0 eq_refl)).
    reflexivity.
  - apply (proj1 (proj2 (C2_save_updates_or_inserts quiet_engine demo_table_context new_person
                           ["ID"] None world0 eq_refl)
                        [] "ID" [] eq_refl eq_refl)).
    reflexivity.
  - apply (proj1 (proj2 (C2_save_updates_or_inserts quiet_engine enrolment_context unplaced
                           ["student"; "course"] (Some ["grade"]) world0 eq_refl)
                        [] "student" ["course"] eq_refl eq_refl)).
    reflexivity.
  - apply (proj1 (proj2 (C2_save_updates_or_inserts quiet_engine enrolment_context
                           placed_nowhere ["student"; "course"] None world0 eq_refl)
                        ["student"] "course" [] eq_refl eq_refl)).
    reflexivity.
  - apply (proj2 (proj2 (C2_save_updates_or_inserts quiet_engine enrolment_context courseless
                           ["student"; "course"] None world0 eq_refl)
                        ["student"] "course" [] eq_refl eq_refl)).
    reflexivity.
Defined.

(** The object whose first id attribute is [None] and whose second is not
    set is stored: [save] executes the INSERT. *)
Example ex_save_first_id_falsy_later_absent :
  statements_run
    (w_trace (snd (TableContext_save quiet_engine enrolment_context unplaced
                                     (Some ["grade"]) world0)))
  = ["INSERT INTO enrolment (grade) VALUES (?) "].
Proof. vm_compute. reflexivity. Qed.

(** C4, as stated, fails: once the store has been emptied from outside, the
    next [open()] runs the setup script again. *)
Lemma C4_counterexample :
  let w1 := snd (DataSource_open quiet_engine demo_heap demo_source None None world_with_db) in
  let w2 := emptied_externally "test.db" w1 in
  let w3 := snd (DataSource_open quiet_engine demo_heap demo_source None None w2) in
  has_content world_with_db "test.db" = true
  /\ scripts_run (w_trace w1) = []
  /\ scripts_run (w_trace w3) = [SETUP_SCRIPT].
Proof. repeat split; vm_compute; reflexivity. Qed.

Lemma C4_no_setup_on_store_with_content_witness :
  scripts_run (w_trace (snd (DataSource_open quiet_engine demo_heap demo_source None None
                                             world_with_db)))
  = scripts_run (w_trace world_with_db)
  /\ scripts_run (w_trace (open_many quiet_engine demo_heap demo_source 3 world_with_db))
     = scripts_run (w_trace world_with_db)
  /\ has_content (open_many quiet_engine demo_heap demo_source 3 world_with_db)
                 (path demo_source) = true
  /\ scripts_run
       (w_trace (snd (DataSource_open quiet_engine demo_heap demo_source None None
                        (emptied_externally (path demo_source)
                           (open_many quiet_engine demo_heap demo_source 3 world_with_db)))))
     = [SETUP_SCRIPT].
Proof.
  pose proof (C4_no_setup_on_store_with_content quiet_engine demo_heap demo_source 3 None None
                world_with_db eq_refl) as (H1 & H2 & H3 & H4).
  split; [exact H1 |]. split; [exact H2 |]. split; [exact H3 |].
  exact (H4 (fun _ _ => eq_refl) (fun _ _ => eq_refl)).
Defined.

Lemma C5_no_match_empty_or_none_witness :
  fst (TableContext_select quiet_engine no_rename demo_table_context (Some "ID=?")
         (Some [PyInt 99]) None None None world0) = Return []
  /\ fst (TableContext_select_single quiet_engine no_rename demo_table_context (Some "ID=?")
            (Some [PyInt 99]) None None None world0) = Return None
  /\ fst (TableContext_by_id quiet_engine no_rename demo_table_context [PyInt 99] None world0)
     = Return None.
Proof.
  pose proof (C5_no_match_empty_or_none quiet_engine no_rename demo_table_context demo_schema
                (Some "ID=?") (Some [PyInt 99]) None None None world0
                "SELECT ID,name,age FROM person WHERE ID=?" eq_refl eq_refl eq_refl)
    as (Hsel & Hsingle & Hid).
  split; [exact Hsel |]. split; [exact Hsingle |].
  exact (proj1 (Hid [PyInt 99] "ID=?" eq_refl eq_refl eq_refl eq_refl eq_refl)).
Defined.

(** C6, as stated, fails: [commit] is a registered table of the schema, and
    accessing it on the context yields the context's own [commit] method,
    not a table context. *)
Lemma C6_counterexample :
  registered vcs_context "commit"
  = Some (mkTable "commit" ["ID"; "message"] (Some demo_source) None (Some ["ID"]))
  /\ ExecutionContext_getattr "commit" (vcs_context, world0)
     = (Return (OwnAttribute "commit"), (vcs_context, world0)).
Proof. split; vm_compute; reflexivity. Qed.

Lemma C6_dynamic_table_access_witness :
  (exists tc st,
     ExecutionContext_getattr "person" (demo_context, world0) = (Return (TableAttribute tc), st)
     /\ _table tc = person
     /\ forall ops, exists tc',
          ExecutionContext_getattr "person" (run_ops quiet_engine ops st)
          = (Return (TableAttribute tc'), run_ops quiet_engine ops st)
          /\ tc_id tc' = tc_id tc /\ _table tc' = person)
  /\ ExecutionContext_getattr "hobby" (demo_context, world0)
     = (Raise (AttributeError "Attribute hobby does not exist"), (demo_context, world0)).
Proof.
  assert (Hsound : cache_sound demo_context).
  { intros n i t H. cbn in H. rewrite lookup_empty in H. discriminate. }
  split.
  - apply (C6_dynamic_table_access quiet_engine demo_context world0 "person");
      [apply (bool_decide_eq_false_1 _); reflexivity | exact Hsound].
  - apply (C6_dynamic_table_access quiet_engine demo_context world0 "hobby");
      [apply (bool_decide_eq_false_1 _); reflexivity | exact Hsound].
Defined.

Lemma C9_update_record_parameters_witness :
  build_update DefaultQueryBuilder person (Some "name=?") (Some ["age"])
  = Return "UPDATE person SET age=? WHERE name=?"
  /\ w_trace (snd (update_record quiet_engine demo_context person [PyInt 10] (Some "name=?")
                                 (Some [PyStr "Totoro"]) (Some ["age"]) world0))
     = [EvExecute demo_connection "UPDATE person SET age=? WHERE name=?"
                  (Some [PyInt 10; PyStr "Totoro"])].
Proof.
  apply (C9_update_record_parameters quiet_engine demo_context demo_schema person [PyInt 10]
           (Some "name=?") [PyStr "Totoro"] (Some ["age"]) world0);
    [reflexivity | discriminate].
Defined.

Lemma C10_delete_obj_without_context_raises_witness :
  fst (Table_delete_obj quiet_engine demo_heap person saved_person None world_with_db)
  = Raise (TypeError "delete_obj() missing 1 required positional argument: 'obj'")
  /\ statements_run
       (w_trace (snd (Table_delete_obj quiet_engine demo_heap person saved_person None
                                       world_with_db))) = []
  /\ w_trace (snd (Table_delete_obj quiet_engine demo_heap person saved_person
                                    (Some demo_context) world_with_db))
     = [EvExecute demo_connection "DELETE FROM person WHERE ID=?" (Some [PyInt 7])]
  /\ fst (Table_delete_obj quiet_engine demo_heap person saved_person (Some demo_context)
                           world_with_db) = Return (Some PyNone).
Proof.
  apply (C10_delete_obj_without_context_raises quiet_engine demo_heap person saved_person
           world_with_db
           (mkWorld [EvConnect demo_connection] [] {[ "test.db" := 4096%N ]} 1)
           demo_context demo_context demo_schema ["ID"] [PyInt 7]);
    [reflexivity | reflexivity | reflexivity | discriminate | reflexivity].
Defined.

(** ** Further properties of the query builder *)

Lemma build_insert_right_aligned_witness :
  build_insert DefaultQueryBuilder person [PyStr "Kent"; PyInt 42] None
  = Return ("INSERT INTO " +:+ name person +:+ " ("
            +:+ join "," (drop (length (columns person) - 2) (columns person))
            +:+ ") VALUES (" +:+ join "," (replicate 2 "?") +:+ ") ").
Proof.
  apply (build_insert_right_aligned DefaultQueryBuilder person [PyStr "Kent"; PyInt 42]).
  cbn. lia.
Defined.

(** X2. With at least as many values as the table has columns, and the column
    list defaulted, the statement names every declared column and has one
    placeholder per value: the number of values is not checked against the
    number of columns. *)
Theorem build_insert_full_row (qb : QueryBuilder) (t : Table) (values : list pyval) :
  (length (columns t) <= length values)%nat ->
  build_insert qb t values None
  = Return ("INSERT INTO " +:+ name t +:+ " (" +:+ join "," (columns t)
            +:+ ") VALUES (" +:+ join "," (replicate (length values) "?") +:+ ") ").
Proof.
  intros H. unfold build_insert. cbn [seq_truthy].
  destruct (Nat.ltb_spec (length values) (length (columns t))); [lia | reflexivity].
Qed.

Lemma build_insert_full_row_witness :
  build_insert DefaultQueryBuilder person [PyInt 1; PyStr "a"; PyInt 2; PyInt 3] None
  = Return "INSERT INTO person (ID,name,age) VALUES (?,?,?,?) ".
Proof.
  apply (build_insert_full_row DefaultQueryBuilder person
           [PyInt 1; PyStr "a"; PyInt 2; PyInt 3]).
  cbn. lia.
Defined.



(** X4. [build_update] falls back on the declared columns only when no column
    list is given at all: an empty column list is kept and gives an empty
    SET clause, where [build_select] falls back on the declared columns. *)
Theorem build_update_empty_columns_kept (qb : QueryBuilder) (t : Table) (w : string) :
  w <> "" ->
  build_update qb t (Some w) (Some []) = Return ("UPDATE " +:+ name t +:+ " SET  WHERE " +:+ w)
  /\ build_update qb t None (Some []) = Return ("UPDATE " +:+ name t +:+ " SET ")
  /\ build_update qb t (Some w) None
     = Return ("UPDATE " +:+ name t +:+ " SET "
               +:+ join ", " (map (fun c => c +:+ "=?") (columns t)) +:+ " WHERE " +:+ w)
  /\ build_select qb t None None None (Some []) = build_select qb t None None None None.
Proof.
  intros Hw. unfold build_update, str_truthy.
  destruct (String.eqb_spec w ""); [done |]. repeat split.
Qed.

Lemma build_update_empty_columns_kept_witness :
  build_update DefaultQueryBuilder person (Some "name=?") (Some [])
  = Return "UPDATE person SET  WHERE name=?"
  /\ build_update DefaultQueryBuilder person None (Some []) = Return "UPDATE person SET "
  /\ build_update DefaultQueryBuilder person (Some "name=?") None
     = Return "UPDATE person SET ID=?, name=?, age=? WHERE name=?"
  /\ build_select DefaultQueryBuilder person None None None (Some [])
     = build_select DefaultQueryBuilder person None None None None.
Proof.
  apply (build_update_empty_columns_kept DefaultQueryBuilder person "name=?"). discriminate.
Defined.

(** ** Further properties of the execution context *)

Section MoreProperties.

Variable eng : Engine.
Variable heap : schema_ref -> Schema.
Variable rename_fields : list string -> list string.

Lemma execute_rejected (self : ExecutionContext) (q : string)
    (params : option (list pyval)) (w : world) (e : exn) :
  execute_result eng (w_trace w) q (if seq_truthy params then params else None) = Raise e ->
  execute eng self q params w
  = (Raise e,
     mkWorld (w_trace w ++ [EvExecute (cur self) q (if seq_truthy params then params else None)])
             (w_log w ++ ["Invalid query. q=" +:+ q]) (w_files w) (w_next w)).
Proof.
  intros He. unfold execute, cursor_execute, logger_write, emit. unfold_monad.
  destruct (seq_truthy params); rewrite He; reflexivity.
Qed.

(** When the engine accepts it, nothing is logged and the cursor is
    returned. *)
Lemma execute_accepted (self : ExecutionContext) (q : string)
    (params : option (list pyval)) (w : world) (rows : list row) :
  execute_result eng (w_trace w) q (if seq_truthy params then params else None) = Return rows ->
  execute eng self q params w
  = (Return (RowCursor rows),
     emit (EvExecute (cur self) q (if seq_truthy params then params else None)) w).
Proof.
  intros He. unfold execute, cursor_execute. unfold_monad.
  destruct (seq_truthy params); rewrite He; reflexivity.
Qed.

(** X5. A delete with no where fragment, or an empty one, never reaches the
    engine: [delete_record] and [TableContext.delete] raise and leave the
    world as it was, so no row is deleted. *)
Theorem delete_without_where_executes_nothing (tc : TableContext) (where_ : option string)
    (values : option (list pyval)) (w : world) :
  str_truthy where_ = false ->
  raises (fst (delete_record eng (_context tc) (_table tc) where_ values w)) = true
  /\ snd (delete_record eng (_context tc) (_table tc) where_ values w) = w
  /\ TableContext_delete eng tc where_ values w
     = delete_record eng (_context tc) (_table tc) where_ values w.
Proof.
  intros Hw. unfold TableContext_delete, delete_record, schema_query_builder, build_delete.
  unfold_monad. rewrite Hw. destruct (schema (_context tc)); repeat split.
Qed.

(** X6. On a table declared without id columns ([id_cols] left at [None]) the
    operations by identity, [by_id], [save], [update_object] and
    [delete_object], raise [TypeError] and execute nothing. *)
Theorem identity_operations_need_id_cols (tc : TableContext) (obj : pyobject)
    (ids : list pyval) (cols : option (list string)) (w : world) :
  _id_cols (_table tc) = None ->
  TableContext_by_id eng rename_fields tc ids cols w
  = (Raise (TypeError "'NoneType' object is not iterable"), w)
  /\ TableContext_save eng tc obj cols w
     = (Raise (TypeError "'NoneType' object is not iterable"), w)
  /\ update_object eng (_context tc) (_table tc) obj cols w
     = (Raise (TypeError "'NoneType' object is not iterable"), w)
  /\ delete_object eng (_context tc) (_table tc) obj w
     = (Raise (TypeError "'NoneType' object is not iterable"), w).
Proof.
  intros Hid.
  unfold TableContext_by_id, select_object_by_id, TableContext_save, update_object,
    delete_object, id_where.
  unfold_monad. rewrite Hid. repeat split.
Qed.

(** X7. The UPDATE of an object: the SET clause over the columns asked for (or
    all declared columns), the identity predicate over the id columns, and
    the column values followed by the id values as parameters. *)
Theorem update_object_statement (exe : ExecutionContext) (s : Schema) (t : Table)
    (obj : pyobject) (cols : option (list string)) (ids : list string)
    (vals idvals : list pyval) (w : world) :
  schema exe = Some s -> _id_cols t = Some ids -> ids <> [] ->
  let cs := if seq_truthy cols then default [] cols else columns t in
  getattrs obj ids = Return idvals -> getattrs obj cs = Return vals ->
  let q := "UPDATE " +:+ name t +:+ " SET " +:+ join ", " (map (fun c => c +:+ "=?") cs)
           +:+ " WHERE " +:+ join " AND " (map (fun c => c +:+ "=?") ids) in
  w_trace (snd (update_object eng exe t obj cols w))
  = w_trace w ++ [EvExecute (cur exe) q (Some (vals ++ idvals))]
  /\ fst (update_object eng exe t obj cols w)
     = match execute_result eng (w_trace w) q (Some (vals ++ idvals)) with
       | Return _ => Return PyNone
       | Raise e => Raise e
       end.
Proof.
  intros Hs Hid Hne cs Hidv Hv q.
  assert (Hidv_ne : idvals <> []).
  { apply map_outcome_length in Hidv. destruct idvals, ids; done. }
  unfold update_object, update_record, schema_query_builder, id_where.
  rewrite Hid, Hs. unfold_monad. change (default [] (Some ids)) with ids.
  rewrite Hidv. fold cs. rewrite Hv.
  assert (Hq : build_update (query_builder s) t
                 (Some (join " AND " (map (fun c => c +:+ "=?") ids))) (Some cs) = Return q).
  { unfold build_update, str_truthy.
    destruct (String.eqb_spec (join " AND " (map (fun c => c +:+ "=?") ids)) "") as [E | _];
      [now apply id_where_nonempty in E | reflexivity]. }
  rewrite Hq.
  assert (Hp : seq_truthy (Some idvals) = true) by (destruct idvals; done).
  rewrite Hp. change (default [] (Some idvals)) with idvals.
  assert (Hp' : seq_truthy (Some (vals ++ idvals)) = true).
  { destruct vals, idvals; done. }
  destruct (execute_result eng (w_trace w) q (Some (vals ++ idvals))) as [rows | e] eqn:He.
  - rewrite (execute_accepted exe q (Some (vals ++ idvals)) w rows);
      rewrite Hp'; [split; reflexivity | exact He].
  - rewrite (execute_rejected exe q (Some (vals ++ idvals)) w e);
      rewrite Hp'; [split; reflexivity | exact He].
Qed.

(** X8. When the engine rejects the statement of an insert, the error reaches
    the caller unchanged, after one line in the log for the one call made
    on the engine; the row id is not read. *)
Theorem insert_record_reraises_engine_error (self : ExecutionContext) (s : Schema)
    (t : Table) (values : list pyval) (cols : option (list string)) (w : world)
    (q : string) (e : exn) :
  schema self = Some s ->
  build_insert (query_builder s) t values cols = Return q ->
  execute_result eng (w_trace w) q (if seq_truthy (Some values) then Some values else None)
  = Raise e ->
  insert_record eng self t values cols w
  = (Raise e,
     mkWorld (w_trace w ++ [EvExecute (cur self) q
                              (if seq_truthy (Some values) then Some values else None)])
             (w_log w ++ ["Invalid query. q=" +:+ q]) (w_files w) (w_next w)).
Proof.
  intros Hs Hq He. unfold insert_record, schema_query_builder. rewrite Hs.
  unfold_monad. rewrite Hq. rewrite (execute_rejected self q (Some values) w e He).
  reflexivity.
Qed.

(** X9. The INSERT of an object names exactly the columns asked for (or all
    declared columns), in order, with the attribute values of the object as
    parameters, and returns the row id the engine reports; if the object
    lacks one of these attributes, [AttributeError] is raised and nothing
    is executed. *)
Theorem insert_object_statement (exe : ExecutionContext) (s : Schema) (t : Table)
    (obj : pyobject) (cols : option (list string)) (w : world) :
  schema exe = Some s ->
  let cs := if seq_truthy cols then default [] cols else columns t in
  match getattrs obj cs with
  | Raise e => insert_object eng exe t obj cols w = (Raise e, w)
  | Return vals =>
      let q := "INSERT INTO " +:+ name t +:+ " (" +:+ join "," cs +:+ ") VALUES ("
               +:+ join "," (replicate (length cs) "?") +:+ ") " in
      let p := if seq_truthy (Some vals) then Some vals else None in
      w_trace (snd (insert_object eng exe t obj cols w))
      = w_trace w ++ [EvExecute (cur exe) q p]
      /\ fst (insert_object eng exe t obj cols w)
         = match execute_result eng (w_trace w) q p with
           | Return _ => Return (lastrowid_of eng (w_trace w ++ [EvExecute (cur exe) q p]))
           | Raise e => Raise e
           end
  end.
Proof.
  intros Hs cs. unfold insert_object. fold cs. unfold_monad.
  destruct (getattrs obj cs) as [vals | e] eqn:Hv; [| reflexivity].
  match goal with |- context [EvExecute _ ?q0 ?p0] => set (q := q0); set (p := p0) end.
  assert (Hlen : length vals = length cs) by (eapply map_outcome_length, Hv).
  assert (Hq : build_insert (query_builder s) t vals (Some cs) = Return q).
  { unfold build_insert. rewrite Hlen.
    assert (Hcs : (if seq_truthy (Some cs) then default [] (Some cs) else columns t) = cs).
    { subst cs. destruct (seq_truthy cols) eqn:Hc.
      - destruct cols as [[| c cs'] |]; try discriminate. reflexivity.
      - destruct (columns t); reflexivity. }
    rewrite Hcs. rewrite Nat.ltb_irrefl. reflexivity. }
  unfold insert_record, schema_query_builder. rewrite Hs. unfold_monad. rewrite Hq.
  destruct (execute_result eng (w_trace w) q p) as [rows | e] eqn:He.
  - rewrite (execute_accepted exe q (Some vals) w rows He). split; reflexivity.
  - rewrite (execute_rejected exe q (Some vals) w e He). split; reflexivity.
Qed.

(** X10. On a table whose id columns are the empty tuple, [save] takes the update
    branch and the UPDATE it executes has no WHERE clause: every row of the
    table receives the values of the object. *)
Theorem save_with_no_id_column_updates_every_row (tc : TableContext) (s : Schema)
    (obj : pyobject) (cols : option (list string)) (vals : list pyval) (w : world) :
  schema (_context tc) = Some s -> _id_cols (_table tc) = Some [] ->
  let cs := if seq_truthy cols then default [] cols else columns (_table tc) in
  getattrs obj cs = Return vals ->
  let q := "UPDATE " +:+ name (_table tc) +:+ " SET "
           +:+ join ", " (map (fun c => c +:+ "=?") cs) in
  w_trace (snd (TableContext_save eng tc obj cols w))
  = w_trace w ++ [EvExecute (cur (_context tc)) q
                    (if seq_truthy (Some vals) then Some vals else None)].
Proof.
  intros Hs Hid cs Hv q.
  unfold TableContext_save. rewrite Hid. unfold_monad. cbn [save_existed truthy].
  unfold update_object, update_record, schema_query_builder, id_where.
  rewrite Hid, Hs. unfold_monad. change (default [] (Some [])) with (@nil string).
  cbn [getattrs map_outcome map join String.concat]. fold cs. rewrite Hv.
  change (build_update (query_builder s) (_table tc) (Some "") (Some cs)) with (Return q).
  cbn [seq_truthy].
  pose proof (execute_spec eng (_context tc) q (Some vals) w) as [Ht _]. cbn zeta in Ht.
  destruct (execute eng (_context tc) q (Some vals) w) as [[r | e] w'] eqn:He;
    cbn in Ht |- *; exact Ht.
Qed.

(** X11. [select_single] gives the first record of what [select] gives, or
    [None]; [by_id] is [select_single] over the identity predicate, the
    positional arguments being the parameters. *)
Theorem select_single_is_first_of_select (tc : TableContext) (where_ : option string)
    (values : option (list pyval)) (orderby : option string) (limit : option Z)
    (cols : option (list string)) (ids : list pyval) (idw : string) (w : world) :
  id_where (_table tc) = Return idw ->
  TableContext_select_single eng rename_fields tc where_ values orderby limit cols w
  = (match fst (TableContext_select eng rename_fields tc where_ values orderby limit cols w)
     with
     | Return l => Return (head l)
     | Raise e => Raise e
     end,
     snd (TableContext_select eng rename_fields tc where_ values orderby limit cols w))
  /\ TableContext_by_id eng rename_fields tc ids cols w
     = TableContext_select_single eng rename_fields tc (Some idw) (Some ids) None None cols w.
Proof.
  intros Hid. split.
  - unfold TableContext_select_single, TableContext_select. unfold_monad.
    destruct (select_record _ _ _ _ _ _ _ _ _ w) as [[[| r l] | e] w']; reflexivity.
  - unfold TableContext_by_id, select_object_by_id, TableContext_select_single.
    unfold_monad. rewrite Hid. reflexivity.
Qed.

(** X12. Closing is idempotent: a second [close] makes no call on the engine
    and changes nothing, and neither does a [commit] after [close]. *)
Theorem close_twice (self : ExecutionContext) (w : world) :
  let s1 := snd (close eng (self, w)) in
  close eng s1 = (Return tt, s1)
  /\ commit eng (fst s1) (snd s1) = (Return tt, snd s1)
  /\ conn (fst s1) = None.
Proof.
  destruct (conn self) as [c |] eqn:Hc; cbn zeta.
  - rewrite (close_spec eng self w c Hc). cbn [snd fst].
    rewrite close_closed by reflexivity. repeat split.
  - rewrite (close_closed eng self w Hc). cbn [snd fst].
    rewrite close_closed by reflexivity. repeat split.
Qed.

(** *** The row mapper *)

Lemma foldl_insert_notin (l : list (string * pyval)) (m : gmap string pyval) (k : string) :
  k ∉ l.*1 -> foldl (fun m kv => <[kv.1 := kv.2]> m) m l !! k = m !! k.
Proof.
  revert m. induction l as [| [k' v'] l IH]; intros m Hk; [reflexivity |].
  cbn in Hk |- *. apply not_elem_of_cons in Hk as [Hne Hk].
  rewrite IH by exact Hk. now apply lookup_insert_ne.
Qed.

Lemma dict_zip_spec (cs : list string) (r : row) (m : gmap string pyval) :
  NoDup cs -> length r = length cs ->
  Forall2 (fun c v => foldl (fun m kv => <[kv.1 := kv.2]> m) m (zip cs r) !! c = Some v) cs r.
Proof.
  revert r m. induction cs as [| c cs IH]; intros [| v r] m Hnd Hlen; try discriminate.
  - constructor.
  - apply NoDup_cons in Hnd as [Hc Hnd]. cbn in Hlen. injection Hlen as Hlen. cbn.
    constructor.
    + rewrite foldl_insert_notin; [apply lookup_insert_eq |].
      rewrite fst_zip by lia. exact Hc.
    + apply IH; assumption.
Qed.

Lemma update_data_fields_spec (source : gmap string pyval) (fs : list string)
    (target : pyobject) :
  Forall (fun f => is_Some (source !! f)) fs ->
  exists obj, update_data_fields source target fs = Return obj
              /\ (forall f, f ∈ fs -> obj !! f = source !! f)
              /\ (forall a, a ∉ fs -> obj !! a = target !! a).
Proof.
  revert target. induction fs as [| f fs IH]; intros target Hall.
  - exists target. split; [reflexivity |]. split; [| done]. intros f Hf. inversion Hf.
  - apply Forall_cons in Hall as [[v Hv] Hall]. cbn. rewrite Hv.
    destruct (IH (<[f := v]> target) Hall) as (obj & Hobj & Hin & Hout).
    exists obj. split; [exact Hobj |]. split.
    + intros g Hg. destruct (decide (g ∈ fs)) as [Hgf | Hgf]; [now apply Hin |].
      apply elem_of_cons in Hg as [-> | Hg]; [| done].
      rewrite Hout by exact Hgf. rewrite lookup_insert_eq. now rewrite Hv.
    + intros a Ha. apply not_elem_of_cons in Ha as [Hne Ha].
      rewrite Hout by exact Ha. now apply lookup_insert_ne.
Qed.

Lemma getattrs_Forall2 (obj : pyobject) (cs : list string) (r : row) :
  Forall2 (fun c v => obj !! c = Some v) cs r -> getattrs obj cs = Return r.
Proof.
  unfold getattrs. induction 1 as [| c v cs r Hc _ IH]; [reflexivity |].
  cbn. unfold getattr at 1. rewrite Hc, IH. reflexivity.
Qed.

Lemma Forall2_impl_elem {A B} (P Q : A -> B -> Prop) (l : list A) (k : list B) :
  Forall2 P l k -> (forall x y, x ∈ l -> P x y -> Q x y) -> Forall2 Q l k.
Proof.
  induction 1 as [| x y l k Hxy _ IH]; intros Himp; constructor.
  - apply Himp; [left | exact Hxy].
  - apply IH. intros x' y' Hx'. apply Himp. now right.
Qed.

Lemma Forall2_lookup_is_Some (m : gmap string pyval) (cs : list string) (r : row) :
  Forall2 (fun c v => m !! c = Some v) cs r -> Forall (fun f => is_Some (m !! f)) cs.
Proof. induction 1; constructor; eauto. Qed.

(** X13. A row mapped onto a prototype gives an object from which the columns
    read back the row: every column is an attribute holding the value at
    its position, and the other attributes are those of the prototype.
    The columns must be distinct and as many as the values of the row. *)
Theorem row_to_object_round_trip (t : Table) (cls : pyobject) (r : row)
    (cols : option (list string)) :
  _proto t = Some cls ->
  let cs := if seq_truthy cols then default [] cols else columns t in
  NoDup cs -> length r = length cs ->
  exists obj, Table_to_obj rename_fields t r cols = Return (RowObject obj)
              /\ getattrs obj cs = Return r
              /\ (forall a, a ∉ cs -> obj !! a = cls !! a).
Proof.
  intros Hp cs Hnd Hlen. unfold Table_to_obj. rewrite Hp. fold cs. clearbody cs.
  unfold to_obj, update_data.
  pose proof (dict_zip_spec cs r ∅ Hnd Hlen) as Hz. fold (dict_zip cs r) in Hz.
  assert (Hfields : match cs with
                    | [] => (map_to_list (dict_zip cs r)).*1
                    | _ :: _ => cs
                    end = cs).
  { destruct cs; [| reflexivity]. unfold dict_zip. cbn. now rewrite map_to_list_empty. }
  rewrite Hfields.
  assert (Hall : Forall (fun f => is_Some (dict_zip cs r !! f)) cs).
  { eapply Forall2_lookup_is_Some, Hz. }
  destruct (update_data_fields_spec (dict_zip cs r) cs cls Hall) as (obj & Hobj & Hin & Hout).
  rewrite Hobj. exists obj. split; [reflexivity |]. split; [| exact Hout].
  apply getattrs_Forall2. eapply Forall2_impl_elem; [exact Hz |].
  intros x y Hx Hxy. cbn. now rewrite (Hin x Hx).
Qed.

Lemma map_outcome_to_row (t : Table) (tmpl : list string) (o : option (list string))
    (rows : list row) :
  (match o with Some x => x | None => template rename_fields t end) = tmpl ->
  map_outcome (fun x => to_row rename_fields t x o) rows
  = if forallb (fun r => bool_decide (length r = length tmpl)) rows
    then Return (map (RowTuple tmpl) rows)
    else Raise (TypeError "__new__() takes a different number of positional arguments").
Proof.
  intros Ht. induction rows as [| r rows IH]; [reflexivity |].
  cbn. unfold to_row at 1. rewrite Ht.
  destruct (bool_decide (length r = length tmpl)); cbn; [| reflexivity].
  rewrite IH.
  destruct (forallb (fun r => bool_decide (length r = length tmpl)) rows); reflexivity.
Qed.

(** X14. Without a prototype, the rows of a cursor become named tuples over
    the column list of the query, one per row and in the order of the
    cursor; a single row whose number of values differs from the number of
    fields makes the whole call raise [TypeError]. *)
Theorem to_table_named_tuples (t : Table) (rows : list row) (cols : option (list string)) :
  _proto t = None ->
  let tmpl := rename_fields (if seq_truthy cols then default [] cols else columns t) in
  to_table rename_fields t (RowCursor rows) cols
  = if forallb (fun r => bool_decide (length r = length tmpl)) rows
    then Return (map (RowTuple tmpl) rows)
    else Raise (TypeError "__new__() takes a different number of positional arguments").
Proof.
  intros Hp tmpl. unfold to_table. rewrite Hp. cbn [row_source_truthy negb rows_of].
  subst tmpl. destruct (seq_truthy cols); now apply map_outcome_to_row.
Qed.

(** *** Schemas, data sources and the contexts they open *)

Lemma DataSource_open_result (ds : DataSource) (ac : option bool) (sch : option Schema)
    (w w1 : world) (exe : ExecutionContext) :
  DataSource_open eng heap ds ac sch w = (Return exe, w1) ->
  exe = mkExecutionContext (Some (mkConnection (w_next w) (path ds)))
                           (mkConnection (w_next w) (path ds))
                           (match sch with Some s => Some s | None => heap <$> ds_schema ds end)
                           (match ac with Some b => b | None => ds_auto_commit ds end) ∅.
Proof.
  unfold DataSource_open, ExecutionContext_init, sqlite3_connect, setup_required,
    logger_write, cursor_executescript.
  unfold_monad.
  destruct (connect_error eng (w_trace w) (path ds)); cbn; [discriminate |].
  match goal with |- context [if ?b then _ else _] => destruct b end; cbn.
  2: { intros [= <- _]. reflexivity. }
  destruct (_setup_file ds), (_setup_script ds); cbn;
    repeat (match goal with
            | |- context [script_error ?e ?t ?s] => destruct (script_error e t s)
            end; cbn);
    try discriminate; intros [= <- _]; reflexivity.
Qed.

(** X16. The context [open()] returns holds a fresh connection to the path of
    the data source and nothing cached; the arguments given to [open()]
    take precedence over the commit policy and the schema of the data
    source, which are used when an argument is left out. *)
Theorem open_binds_arguments (ds : DataSource) (ac : option bool) (sch : option Schema)
    (w w1 : world) (exe : ExecutionContext) :
  DataSource_open eng heap ds ac sch w = (Return exe, w1) ->
  conn exe = Some (cur exe) /\ c_path (cur exe) = path ds
  /\ auto_commit exe = match ac with Some b => b | None => ds_auto_commit ds end
  /\ schema exe = match sch with Some s => Some s | None => heap <$> ds_schema ds end
  /\ tables_cache exe = ∅
  /\ EvConnect (cur exe) ∈ w_trace w1.
Proof.
  intros Hopen. pose proof (DataSource_open_result _ _ _ _ _ _ Hopen) as ->.
  repeat split. cbn [cur].
  revert Hopen.
  unfold DataSource_open, ExecutionContext_init, sqlite3_connect, setup_required,
    logger_write, cursor_executescript.
  unfold_monad.
  destruct (connect_error eng (w_trace w) (path ds)); cbn; [discriminate |].
  match goal with |- context [if ?b then _ else _] => destruct b end; cbn.
  2: { intros [= <-]. cbn. set_solver. }
  destruct (_setup_file ds), (_setup_script ds); cbn;
    repeat (match goal with
            | |- context [script_error ?e ?t ?s] => destruct (script_error e t s)
            end; cbn);
    try discriminate; intros [= <-]; cbn; set_solver.
Qed.

Lemma setup_required_spec (w : world) (p : string) :
  negb (isfile w p) || (getsize w p =? 0)%N = negb (has_content w p).
Proof.
  unfold has_content. destruct (isfile w p), (getsize w p =? 0)%N; reflexivity.
Qed.

Lemma create_if_absent_no_content (w : world) (p : string) (t : list event)
    (l : list string) (n : nat) :
  has_content w p = false ->
  has_content (mkWorld t l (create_if_absent p (w_files w)) n) p = false.
Proof.
  unfold has_content, isfile, getsize, create_if_absent. cbn. intros Hc.
  destruct (w_files w !! p) as [size |] eqn:Hp.
  - destruct (names_no_file p); rewrite Hp; exact Hc.
  - destruct (names_no_file p).
    + rewrite Hp. reflexivity.
    + rewrite lookup_insert_eq. reflexivity.
Qed.

(** X18. When the first setup script fails on a store that needs setup,
    [open()] raises the engine's error with the connection made and never
    closed or committed, and the second script is not run. *)
Theorem open_setup_failure_leaves_connection_open (ds : DataSource) (ac : option bool)
    (sch : option Schema) (w : world) (script : string) (e : exn) :
  has_content w (path ds) = false ->
  connect_error eng (w_trace w) (path ds) = None ->
  _setup_file ds = Some script ->
  let c := mkConnection (w_next w) (path ds) in
  script_error eng (w_trace w ++ [EvConnect c]) script = Some e ->
  fst (DataSource_open eng heap ds ac sch w) = Raise e
  /\ w_trace (snd (DataSource_open eng heap ds ac sch w))
     = w_trace w ++ [EvConnect c; EvScript c script].
Proof.
  intros Hc Hconn Hfile c Herr.
  unfold DataSource_open, ExecutionContext_init, sqlite3_connect, setup_required,
    logger_write, cursor_executescript.
  unfold_monad. rewrite Hconn. cbn.
  rewrite setup_required_spec. unfold set_files. cbn.
  rewrite (create_if_absent_no_content w (path ds) _ _ _ Hc). cbn.
  rewrite Hfile. cbn. fold c. rewrite Herr. cbn.
  split; [reflexivity |]. now rewrite <- app_assoc.
Qed.

Lemma DataSource_open_memory_files (ds : DataSource) (ac : option bool)
    (sch : option Schema) (w : world) :
  path ds = ":memory:" ->
  w_files (snd (DataSource_open eng heap ds ac sch w)) = w_files w.
Proof.
  intros Hp.
  unfold DataSource_open, ExecutionContext_init, sqlite3_connect, setup_required,
    logger_write, cursor_executescript, write_file, create_if_absent.
  unfold_monad. rewrite Hp. change (names_no_file ":memory:") with true.
  destruct (connect_error eng (w_trace w) ":memory:"); cbn; [reflexivity |].
  match goal with |- context [if ?b then _ else _] => destruct b end; cbn; [| reflexivity].
  destruct (_setup_file ds), (_setup_script ds); cbn;
    repeat (match goal with
            | |- context [script_error ?e ?t ?s] => destruct (script_error e t s)
            end; cbn);
    reflexivity.
Qed.

(** X19. The reserved path [:memory:] never counts as a store with content: as
    long as no regular file bears that name, every [open()] runs the setup
    scripts again, so [n] calls run them [n] times. *)
Theorem memory_store_is_set_up_at_every_open (ds : DataSource) (n : nat) (w : world) :
  path ds = ":memory:" -> w_files w !! ":memory:" = None ->
  (forall t p, connect_error eng t p = None) ->
  (forall t script, script_error eng t script = None) ->
  scripts_run (w_trace (open_many eng heap ds n w))
  = scripts_run (w_trace w)
    ++ concat (replicate n (option_list (_setup_file ds) ++ option_list (_setup_script ds))).
Proof.
  intros Hp Hw Hconn Hscr. revert w Hw.
  induction n as [| n IH]; intros w Hw; cbn [open_many replicate concat].
  - now rewrite app_nil_r.
  - rewrite IH by (rewrite DataSource_open_memory_files by exact Hp; exact Hw).
    rewrite (DataSource_open_runs_setup eng heap ds None None w).
    + now rewrite <- !app_assoc.
    + unfold has_content, isfile. rewrite Hp, Hw. reflexivity.
    + exact Hconn.
    + exact Hscr.
Qed.



(** X21. [Table.insert] without a context opens one, inserts, and releases the
    connection whether the insert returns or raises: the commit is made
    when the context commits automatically, the close always, and the
    outcome of the insert is the outcome of the call. *)
Theorem Table_insert_without_context_releases (t : Table) (values : list pyval)
    (cols : option (list string)) (w w1 w2 : world) (exe : ExecutionContext)
    (r : outcome pyval) :
  Table_open eng heap t w = (Return exe, w1) ->
  insert_record eng exe t values cols
                (mkWorld (w_trace w1) (w_log w1) (w_files w1) (S (w_next w1))) = (r, w2) ->
  fst (Table_insert eng heap t values cols None w)
  = match r with Return v => Return (Some v) | Raise e => Raise e end
  /\ w_trace (snd (Table_insert eng heap t values cols None w))
     = w_trace w2 ++ (if auto_commit exe then [EvCommit (cur exe)] else [])
       ++ [EvClose (cur exe)].
Proof.
  intros Hopen Hins. unfold Table_insert, with_open. rewrite Hopen.
  assert (Hconn : conn exe = Some (cur exe)).
  { unfold Table_open in Hopen. destruct (_data_source t); [| discriminate].
    eapply DataSource_open_conn, Hopen. }
  erewrite py_with_spec; [| | exact Hconn].
  2: { unfold Table_ctx, TableContext_init, TableContext_insert, fresh_id.
       unfold_monad. cbn. rewrite Hins. destruct r; reflexivity. }
  split; reflexivity.
Qed.

(** X22. A table whose data source was built on its own, without a schema,
    cannot select without a context: the context [open()] makes for it has
    no schema, the select raises [AttributeError] before any statement is
    built, and the connection is released. *)
Theorem Table_select_needs_bound_schema (t : Table) (ds : DataSource)
    (where_ : option string) (values : option (list pyval)) (orderby : option string)
    (limit : option Z) (cols : option (list string)) (w w1 : world)
    (exe : ExecutionContext) :
  _data_source t = Some ds -> ds_schema ds = None ->
  DataSource_open eng heap ds None None w = (Return exe, w1) ->
  fst (Table_select eng heap rename_fields t where_ values orderby limit cols None w)
  = Raise (AttributeError "'NoneType' object has no attribute 'query_builder'")
  /\ w_trace (snd (Table_select eng heap rename_fields t where_ values orderby limit cols
                                None w))
     = w_trace w1 ++ (if auto_commit exe then [EvCommit (cur exe)] else [])
       ++ [EvClose (cur exe)].
Proof.
  intros Hds Hsch Hopen. unfold Table_select, with_open, Table_open. rewrite Hds, Hopen.
  pose proof (DataSource_open_result _ _ _ _ _ _ Hopen) as Hexe.
  assert (Hnone : schema exe = None) by (rewrite Hexe; cbn; now rewrite Hsch).
  assert (Hconn : conn exe = Some (cur exe)) by (eapply DataSource_open_conn, Hopen).
  erewrite py_with_spec; [| | exact Hconn].
  2: { unfold select_record, schema_query_builder. unfold_monad. cbn. rewrite Hnone.
       reflexivity. }
  split; reflexivity.
Qed.

End MoreProperties.

(** ** The further properties at concrete inputs *)

Lemma delete_without_where_executes_nothing_witness :
  raises (fst (delete_record quiet_engine demo_context person None None world0)) = true
  /\ snd (delete_record quiet_engine demo_context person None None world0) = world0
  /\ TableContext_delete quiet_engine demo_table_context None None world0
     = delete_record quiet_engine demo_context person None None world0.
Proof.
  apply (delete_without_where_executes_nothing quiet_engine demo_table_context None None
           world0).
  reflexivity.
Defined.

Lemma identity_operations_need_id_cols_witness :
  TableContext_by_id quiet_engine no_rename hobby_context [PyInt 1] None world0
  = (Raise (TypeError "'NoneType' object is not iterable"), world0)
  /\ TableContext_save quiet_engine hobby_context a_setting None world0
     = (Raise (TypeError "'NoneType' object is not iterable"), world0)
  /\ update_object quiet_engine demo_context hobby a_setting None world0
     = (Raise (TypeError "'NoneType' object is not iterable"), world0)
  /\ delete_object quiet_engine demo_context hobby a_setting world0
     = (Raise (TypeError "'NoneType' object is not iterable"), world0).
Proof.
  apply (identity_operations_need_id_cols quiet_engine no_rename hobby_context a_setting
           [PyInt 1] None world0).
  reflexivity.
Defined.

Lemma update_object_statement_witness :
  w_trace (snd (update_object quiet_engine demo_context person saved_person
                              (Some ["name"]) world0))
  = [EvExecute demo_connection "UPDATE person SET name=? WHERE ID=?"
               (Some [PyStr "Buu"; PyInt 7])]
  /\ fst (update_object quiet_engine demo_context person saved_person (Some ["name"]) world0)
     = Return PyNone.
Proof.
  apply (update_object_statement quiet_engine demo_context demo_schema person saved_person
           (Some ["name"]) ["ID"] [PyStr "Buu"] [PyInt 7] world0);
    [reflexivity | reflexivity | discriminate | reflexivity | reflexivity].
Defined.

Lemma insert_record_reraises_engine_error_witness :
  insert_record rejecting_engine demo_context person [PyStr "Kent"; PyInt 42] None world0
  = (Raise (SqliteError "UNIQUE constraint failed"),
     mkWorld [EvExecute demo_connection "INSERT INTO person (name,age) VALUES (?,?) "
                (Some [PyStr "Kent"; PyInt 42])]
             ["Invalid query. q=INSERT INTO person (name,age) VALUES (?,?) "] ∅ 0).
Proof.
  apply (insert_record_reraises_engine_error rejecting_engine demo_context demo_schema person
           [PyStr "Kent"; PyInt 42] None world0
           "INSERT INTO person (name,age) VALUES (?,?) " (SqliteError "UNIQUE constraint failed"));
    reflexivity.
Defined.

Lemma insert_object_statement_witness :
  (w_trace (snd (insert_object quiet_engine demo_context person new_person
                               (Some ["name"; "age"]) world0))
   = [EvExecute demo_connection "INSERT INTO person (name,age) VALUES (?,?) "
                (Some [PyStr "Buu"; PyInt 1000])]
   /\ fst (insert_object quiet_engine demo_context person new_person (Some ["name"; "age"])
                         world0) = Return (PyInt 1))
  /\ insert_object quiet_engine demo_context person anonymous None world0
     = (Raise (AttributeError "object has no attribute 'ID'"), world0).
Proof.
  split.
  - apply (insert_object_statement quiet_engine demo_context demo_schema person new_person
             (Some ["name"; "age"]) world0).
    reflexivity.
  - apply (insert_object_statement quiet_engine demo_context demo_schema person anonymous
             None world0).
    reflexivity.
Defined.

Lemma save_with_no_id_column_updates_every_row_witness :
  w_trace (snd (TableContext_save quiet_engine setting_context a_setting None world0))
  = [EvExecute demo_connection "UPDATE setting SET key=?, value=?"
               (Some [PyStr "theme"; PyStr "dark"])].
Proof.
  apply (save_with_no_id_column_updates_every_row quiet_engine setting_context demo_schema
           a_setting None [PyStr "theme"; PyStr "dark"] world0); reflexivity.
Defined.

Lemma select_single_is_first_of_select_witness :
  TableContext_select_single quiet_engine no_rename demo_table_context (Some "age > ?")
                             (Some [PyInt 70]) None None None world0
  = (Return None,
     snd (TableContext_select quiet_engine no_rename demo_table_context (Some "age > ?")
                              (Some [PyInt 70]) None None None world0))
  /\ TableContext_by_id quiet_engine no_rename demo_table_context [PyInt 7] None world0
     = TableContext_select_single quiet_engine no_rename demo_table_context (Some "ID=?")
                                  (Some [PyInt 7]) None None None world0.
Proof.
  apply (select_single_is_first_of_select quiet_engine no_rename demo_table_context
           (Some "age > ?") (Some [PyInt 70]) None None None [PyInt 7] "ID=?" world0).
  reflexivity.
Defined.

Lemma row_to_object_round_trip_witness :
  exists obj,
    Table_to_obj no_rename person_objects [PyInt 5; PyStr "Vi"] (Some ["ID"; "name"])
    = Return (RowObject obj)
    /\ getattrs obj ["ID"; "name"] = Return [PyInt 5; PyStr "Vi"]
    /\ (forall a, a ∉ ["ID"; "name"] -> obj !! a = person_proto !! a).
Proof.
  apply (row_to_object_round_trip no_rename person_objects person_proto
           [PyInt 5; PyStr "Vi"] (Some ["ID"; "name"]));
    [reflexivity | | reflexivity].
  apply (bool_decide_unpack _). reflexivity.
Defined.

Lemma to_table_named_tuples_witness :
  to_table no_rename hobby (RowCursor [[PyInt 4; PyStr "coding"]; [PyInt 4; PyStr "reading"]])
           None
  = Return [RowTuple ["pid"; "hobby"] [PyInt 4; PyStr "coding"];
            RowTuple ["pid"; "hobby"] [PyInt 4; PyStr "reading"]].
Proof.
  apply (to_table_named_tuples no_rename hobby
           [[PyInt 4; PyStr "coding"]; [PyInt 4; PyStr "reading"]] None).
  reflexivity.
Defined.

Lemma open_binds_arguments_witness :
  conn demo_context = Some (cur demo_context) /\ c_path (cur demo_context) = path demo_source
  /\ auto_commit demo_context = true
  /\ schema demo_context = Some demo_schema
  /\ tables_cache demo_context = ∅
  /\ EvConnect (cur demo_context) ∈ [EvConnect demo_connection].
Proof.
  apply (open_binds_arguments quiet_engine demo_heap demo_source None None world_with_db
           (mkWorld [EvConnect demo_connection] [] {[ "test.db" := 4096%N ]} 1) demo_context).
  reflexivity.
Defined.

Lemma open_setup_failure_leaves_connection_open_witness :
  fst (DataSource_open broken_setup_engine demo_heap file_source None None world0)
  = Raise (SqliteError "near CREATE: syntax error")
  /\ w_trace (snd (DataSource_open broken_setup_engine demo_heap file_source None None world0))
     = [EvConnect demo_connection; EvScript demo_connection CREATE_SCRIPT].
Proof.
  apply (open_setup_failure_leaves_connection_open broken_setup_engine demo_heap file_source
           None None world0 CREATE_SCRIPT (SqliteError "near CREATE: syntax error"));
    reflexivity.
Defined.

Lemma memory_store_is_set_up_at_every_open_witness :
  scripts_run (w_trace (open_many quiet_engine demo_heap memory_source 2 world0))
  = [CREATE_SCRIPT; SETUP_SCRIPT; CREATE_SCRIPT; SETUP_SCRIPT].
Proof.
  apply (memory_store_is_set_up_at_every_open quiet_engine demo_heap memory_source 2 world0);
    reflexivity.
Defined.


Lemma Table_insert_without_context_releases_witness :
  fst (Table_insert quiet_engine demo_heap person [PyStr "Kent"; PyInt 42] None None
                    world_with_db) = Return (Some (PyInt 1))
  /\ w_trace (snd (Table_insert quiet_engine demo_heap person [PyStr "Kent"; PyInt 42] None
                                None world_with_db))
     = [EvConnect demo_connection;
        EvExecute demo_connection "INSERT INTO person (name,age) VALUES (?,?) "
                  (Some [PyStr "Kent"; PyInt 42]);
        EvCommit demo_connection; EvClose demo_connection].
Proof.
  apply (Table_insert_without_context_releases quiet_engine demo_heap person
           [PyStr "Kent"; PyInt 42] None world_with_db
           (mkWorld [EvConnect demo_connection] [] {[ "test.db" := 4096%N ]} 1)
           (mkWorld [EvConnect demo_connection;
                     EvExecute demo_connection "INSERT INTO person (name,age) VALUES (?,?) "
                               (Some [PyStr "Kent"; PyInt 42])]
                    [] {[ "test.db" := 4096%N ]} 2)
           demo_context (Return (PyInt 1)));
    reflexivity.
Defined.

Lemma Table_select_needs_bound_schema_witness :
  fst (Table_select quiet_engine demo_heap no_rename unbound_person None None None None None
                    None world_with_db)
  = Raise (AttributeError "'NoneType' object has no attribute 'query_builder'")
  /\ w_trace (snd (Table_select quiet_engine demo_heap no_rename unbound_person None None None
                                None None None world_with_db))
     = [EvConnect demo_connection; EvCommit demo_connection; EvClose demo_connection].
Proof.
  apply (Table_select_needs_bound_schema quiet_engine demo_heap no_rename unbound_person
           unbound_source None None None None None world_with_db
           (mkWorld [EvConnect demo_connection] [] {[ "test.db" := 4096%N ]} 1)
           (mkExecutionContext (Some demo_connection) demo_connection None true ∅));
    reflexivity.
Defined.
